(** * LANShare: a shallow embedding of [app.py]

    The Flask application keeps two pieces of persistent state, both on
    the file system: the upload directory and the JSON file [texts.json].
    Every handler is modelled as a function from the file system (and the
    request data) to an outcome and a new file system.

    Conventions.
    - A Python [str] is a [string]: the bytes of its UTF-8 encoding.
    - A Python exception is an outcome [Raise e]; an HTTP response is a
      value of [response].
    - The values [uuid.uuid4()] and [datetime.now()] draw from the
      environment; the handlers take them as arguments.  So do the
      order of [os.listdir] and the modification times of the files,
      which the file system of the model does not hold.
    - Library functions ([os.path], [json], [str.strip], the route
      converter of Flask and [send_from_directory] of Werkzeug) are
      modelled after their CPython / Werkzeug implementations on POSIX. *)

From Stdlib Require Import Ascii Decimal DecimalString DecimalN DecimalZ
  DecimalPos Sorted.
From stdpp Require Import base numbers option list gmap strings.

Local Open Scope Z_scope.
Local Open Scope nat_scope.
Local Set Warnings "-register-all".

(** ** Outcomes of Python code *)

Inductive exn :=
  | TypeError
  | AttributeError
  | KeyError
  | JSONDecodeError
  | FileNotFoundError
  | NotADirectoryError
  | IsADirectoryError.

Inductive outcome (A : Type) :=
  | Return (a : A)
  | Raise (e : exn).
Arguments Return {A} a.
Arguments Raise {A} e.

Definition obind {A B} (m : outcome A) (k : A → outcome B) : outcome B :=
  match m with
  | Return a => k a
  | Raise e => Raise e
  end.

Notation "'try' x <- m ; k" := (obind m (fun x => k))
  (at level 20, x name, m at level 100, k at level 200, only parsing).

(** ** Strings *)

Definition ch (n : nat) : ascii := ascii_of_nat n.
Definition str1 (c : ascii) : string := String c "".

Fixpoint str_take (n : nat) (s : string) : string :=
  match n, s with
  | S n, String c s => String c (str_take n s)
  | _, _ => ""
  end.

Fixpoint str_drop (n : nat) (s : string) : string :=
  match n, s with
  | S n, String _ s => str_drop n s
  | _, _ => s
  end.

Fixpoint has_char (c : ascii) (s : string) : bool :=
  match s with
  | "" => false
  | String a s => Ascii.eqb a c || has_char c s
  end.

Fixpoint str_prefix (p s : string) : bool :=
  match p, s with
  | "", _ => true
  | String a p, String b s => Ascii.eqb a b && str_prefix p s
  | _, _ => false
  end.

(** [needle in s] for Python strings: substring test. *)
Fixpoint str_contains (needle s : string) : bool :=
  str_prefix needle s ||
  match s with
  | "" => false
  | String _ s => str_contains needle s
  end.

(** [s.rfind(c)], with [None] for Python's [-1]. *)
Fixpoint rfind (c : ascii) (s : string) : option nat :=
  match s with
  | "" => None
  | String a s =>
      match rfind c s with
      | Some i => Some (S i)
      | None => if Ascii.eqb a c then Some 0 else None
      end
  end.

(** [s.split('/')]. *)
Fixpoint split_slash (s : string) : list string :=
  match s with
  | "" => [""]
  | String c s =>
      if Ascii.eqb c "/" then "" :: split_slash s
      else match split_slash s with
           | w :: ws => String c w :: ws
           | [] => [String c ""]
           end
  end.

(** ['/'.join(l)]. *)
Fixpoint join_slash (l : list string) : string :=
  match l with
  | [] => ""
  | [w] => w
  | w :: ws => w +:+ "/" +:+ join_slash ws
  end.

(** *** [str.strip()]

    Without argument, [strip] removes the characters for which
    [str.isspace] holds.  On the UTF-8 encoding these are the following
    byte sequences. *)

Definition bytes (l : list nat) : string :=
  fold_right (fun n s => String (ch n) s) "" l.

Definition whitespace : list string :=
  bytes <$>
  [ [9]; [10]; [11]; [12]; [13]; [28]; [29]; [30]; [31]; [32];
    [194; 133]; [194; 160]; [225; 154; 128];
    [226; 128; 128]; [226; 128; 129]; [226; 128; 130]; [226; 128; 131];
    [226; 128; 132]; [226; 128; 133]; [226; 128; 134]; [226; 128; 135];
    [226; 128; 136]; [226; 128; 137]; [226; 128; 138];
    [226; 128; 168]; [226; 128; 169]; [226; 128; 175];
    [226; 129; 159]; [227; 128; 128] ].

Fixpoint lstrip_with (ws : list string) (fuel : nat) (s : string) : string :=
  match fuel with
  | O => s
  | S fuel =>
      match List.find (fun w => str_prefix w s) ws with
      | Some w => lstrip_with ws fuel (str_drop (String.length w) s)
      | None => s
      end
  end.

Definition lstrip (s : string) : string :=
  lstrip_with whitespace (String.length s) s.

Definition rstrip (s : string) : string :=
  String.rev
    (lstrip_with (String.rev <$> whitespace) (String.length s) (String.rev s)).

Definition strip (s : string) : string := rstrip (lstrip s).

(** ** Numbers as text *)

(** [str(n)] for a non-negative Python [int]. *)
Definition dec (n : nat) : string :=
  NilZero.string_of_uint (N.to_uint (N.of_nat n)).

(** [str(z)] for a Python [int]. *)
Definition int_repr (z : Z) : string :=
  NilZero.string_of_int (Z.to_int z).

Definition hex_digit (d : N) : ascii :=
  match d with
  | 0 => "0" | 1 => "1" | 2 => "2" | 3 => "3" | 4 => "4" | 5 => "5"
  | 6 => "6" | 7 => "7" | 8 => "8" | 9 => "9" | 10 => "a" | 11 => "b"
  | 12 => "c" | 13 => "d" | 14 => "e" | _ => "f"
  end%N%char.

(** ['%0nx' % u], for [u] below [16^n]. *)
Fixpoint hex_fixed (n : nat) (u : N) : string :=
  match n with
  | O => ""
  | S n => hex_fixed n (u / 16)%N +:+ str1 (hex_digit (u mod 16)%N)
  end.

(** ** UUIDs

    A [uuid.UUID] is its 128-bit integer.  [str] renders it as 32
    hexadecimal digits in groups of 8-4-4-4-12. *)

Definition uuid_str (u : N) : string :=
  let hex := hex_fixed 32 u in
  str_take 8 hex +:+ "-" +:+ str_take 4 (str_drop 8 hex) +:+ "-" +:+
  str_take 4 (str_drop 12 hex) +:+ "-" +:+ str_take 4 (str_drop 16 hex) +:+
  "-" +:+ str_drop 20 hex.


(** ** JSON values

    The values that [json.load] and [request.get_json] return.  A JSON
    number is a Python [int]; floating-point literals are outside the
    model (the application never writes one).  A [dict] keeps its keys
    in insertion order, so it is an association list; its keys are
    pairwise distinct ([wf_json]). *)

Inductive json :=
  | JNull
  | JBool (b : bool)
  | JInt (z : Z)
  | JStr (s : string)
  | JArr (l : list json)
  | JObj (d : list (string * json)).

Abbreviation dict := (list (string * json)).

Fixpoint dict_get (k : string) (d : dict) : option json :=
  match d with
  | [] => None
  | (k', v) :: d => if String.eqb k' k then Some v else dict_get k d
  end.

(** [d[k] = v]: an existing key keeps its position. *)
Fixpoint dict_set (k : string) (v : json) (d : dict) : dict :=
  match d with
  | [] => [(k, v)]
  | (k', v') :: d =>
      if String.eqb k' k then (k', v) :: d else (k', v') :: dict_set k v d
  end.

(** [dict(pairs)]. *)
Definition dict_of_pairs (pairs : dict) : dict :=
  fold_left (fun d kv => dict_set kv.1 kv.2 d) pairs [].

Fixpoint distinct (l : list string) : bool :=
  match l with
  | [] => true
  | k :: l => negb (existsb (String.eqb k) l) && distinct l
  end.

Fixpoint wf_json (v : json) : bool :=
  match v with
  | JArr l => forallb wf_json l
  | JObj d => distinct (fst <$> d) && forallb (fun kv => wf_json kv.2) d
  | _ => true
  end.

(** *** Python operators on JSON values *)

(** [bool(v)]. *)
Definition truthy (v : json) : bool :=
  match v with
  | JNull => false
  | JBool b => b
  | JInt z => negb (z =? 0)%Z
  | JStr s => negb (String.eqb s "")
  | JArr l => negb (bool_decide (l = []))
  | JObj d => negb (bool_decide (d = []))
  end.

Definition is_str (k : string) (v : json) : bool :=
  match v with
  | JStr s => String.eqb s k
  | _ => false
  end.

(** [k in v] for a string [k]. *)
Definition py_in (k : string) (v : json) : outcome bool :=
  match v with
  | JObj d => Return (bool_decide (is_Some (dict_get k d)))
  | JArr l => Return (existsb (is_str k) l)
  | JStr s => Return (str_contains k s)
  | JNull | JBool _ | JInt _ => Raise TypeError
  end.

(** [v[k]] for a string [k]. *)
Definition py_getitem (v : json) (k : string) : outcome json :=
  match v with
  | JObj d =>
      match dict_get k d with
      | Some x => Return x
      | None => Raise KeyError
      end
  | _ => Raise TypeError
  end.

(** [v.strip()]. *)
Definition py_strip (v : json) : outcome string :=
  match v with
  | JStr s => Return (strip s)
  | _ => Raise AttributeError
  end.

(** [v.insert(0, x)]. *)
Definition py_insert0 (v : json) (x : json) : outcome json :=
  match v with
  | JArr l => Return (JArr (x :: l))
  | _ => Raise AttributeError
  end.

(** [v != k] for a string [k]. *)
Definition py_ne_str (v : json) (k : string) : bool := negb (is_str k v).

(** [[t for t in l if t['id'] != text_id]] on the elements of a list. *)
Fixpoint keep_other_ids (text_id : string) (l : list json)
  : outcome (list json) :=
  match l with
  | [] => Return []
  | t :: l =>
      try i <- py_getitem t "id";
      try r <- keep_other_ids text_id l;
      Return (if py_ne_str i text_id then t :: r else r)
  end.

(** The comprehension iterates over a list, over the keys of a dict and
    over the characters of a string; other values are not iterable. *)
Definition py_filter_ids (text_id : string) (v : json) : outcome json :=
  match v with
  | JArr l => try r <- keep_other_ids text_id l; Return (JArr r)
  | JObj d =>
      try r <- keep_other_ids text_id ((fun kv => JStr kv.1) <$> d);
      Return (JArr r)
  | JStr s =>
      try r <- keep_other_ids text_id
                 ((fun c => JStr (str1 c)) <$> String.list_ascii_of_string s);
      Return (JArr r)
  | JNull | JBool _ | JInt _ => Raise TypeError
  end.

(** *** [json.dump(v, f, ensure_ascii=False, indent=2)] *)

Definition dquote : ascii := ch 34.
Definition backslash : ascii := ch 92.

(** The replacement table [ESCAPE_DCT] over the characters matched by
    [ESCAPE]. *)
Definition escape_char (c : ascii) : string :=
  match N_of_ascii c with
  | 34 => String backslash (str1 dquote)
  | 92 => String backslash (str1 backslash)
  | 8 => String backslash "b"
  | 12 => String backslash "f"
  | 10 => String backslash "n"
  | 13 => String backslash "r"
  | 9 => String backslash "t"
  | n => if (n <? 32)%N then String backslash "u" +:+ hex_fixed 4 n
         else str1 c
  end%N.

Fixpoint escape (s : string) : string :=
  match s with
  | "" => ""
  | String c s => escape_char c +:+ escape s
  end.

Definition encode_basestring (s : string) : string :=
  String dquote (escape s +:+ str1 dquote).

Fixpoint spaces (n : nat) : string :=
  match n with
  | O => ""
  | S n => String " " (spaces n)
  end.

Definition newline_indent (level : nat) : string :=
  String (ch 10) (spaces (2 * level)).

Fixpoint str_join (sep : string) (l : list string) : string :=
  match l with
  | [] => ""
  | [w] => w
  | w :: ws => w +:+ sep +:+ str_join sep ws
  end.

Fixpoint iterencode (level : nat) (v : json) : string :=
  match v with
  | JNull => "null"
  | JBool true => "true"
  | JBool false => "false"
  | JInt z => int_repr z
  | JStr s => encode_basestring s
  | JArr [] => "[]"
  | JArr l =>
      "[" +:+ newline_indent (S level) +:+
      str_join ("," +:+ newline_indent (S level))
               (iterencode (S level) <$> l) +:+
      newline_indent level +:+ "]"
  | JObj [] => "{}"
  | JObj d =>
      "{" +:+ newline_indent (S level) +:+
      str_join ("," +:+ newline_indent (S level))
               ((fun kv => encode_basestring kv.1 +:+ ": " +:+
                           iterencode (S level) kv.2) <$> d) +:+
      newline_indent level +:+ "}"
  end.

Definition dumps (v : json) : string := iterencode 0 v.

(** *** [json.load(f)]

    The scanner of the [json] module ([scanstring], [JSONArray],
    [JSONObject], [NUMBER_RE]).  A result [Some (v, rest)] is the value
    read and the text after it; [None] is a [JSONDecodeError].  The fuel
    bounds the nesting and is taken from the length of the text. *)

Definition is_ws (c : ascii) : bool :=
  match N_of_ascii c with
  | 32 | 9 | 10 | 13 => true
  | _ => false
  end%N.

Fixpoint skip_ws (s : string) : string :=
  match s with
  | "" => ""
  | String c r => if is_ws c then skip_ws r else s
  end.

Definition hex_val (c : ascii) : option N :=
  let n := N_of_ascii c in
  if (48 <=? n)%N && (n <=? 57)%N then Some (n - 48)%N
  else if (97 <=? n)%N && (n <=? 102)%N then Some (n - 87)%N
  else if (65 <=? n)%N && (n <=? 70)%N then Some (n - 55)%N
  else None.

Definition hex4 (a b c d : ascii) : option N :=
  match hex_val a, hex_val b, hex_val c, hex_val d with
  | Some a, Some b, Some c, Some d => Some (((a * 16 + b) * 16 + c) * 16 + d)%N
  | _, _, _, _ => None
  end.

Definition byte_of (n : N) : ascii := ascii_of_N n.

(** The bytes of [chr(u)]; a lone surrogate is kept as three bytes. *)
Definition utf8 (u : N) : string :=
  if (u <? 128)%N then str1 (byte_of u)
  else if (u <? 2048)%N then
    String (byte_of (192 + u / 64)) (str1 (byte_of (128 + u mod 64)))
  else if (u <? 65536)%N then
    String (byte_of (224 + u / 4096))
      (String (byte_of (128 + (u / 64) mod 64))
         (str1 (byte_of (128 + u mod 64))))
  else
    String (byte_of (240 + u / 262144))
      (String (byte_of (128 + (u / 4096) mod 64))
         (String (byte_of (128 + (u / 64) mod 64))
            (str1 (byte_of (128 + u mod 64)))))%N.

Definition is_high_surrogate (u : N) : bool := (55296 <=? u)%N && (u <=? 56319)%N.
Definition is_low_surrogate (u : N) : bool := (56320 <=? u)%N && (u <=? 57343)%N.
Definition join_surrogates (u u2 : N) : N :=
  (65536 + ((u - 55296) * 1024 + (u2 - 56320)))%N.

(** The table [BACKSLASH]. *)
Definition unescape (e : ascii) : option ascii :=
  match N_of_ascii e with
  | 34 => Some dquote
  | 92 => Some backslash
  | 47 => Some "/"%char
  | 98 => Some (ch 8)
  | 102 => Some (ch 12)
  | 110 => Some (ch 10)
  | 114 => Some (ch 13)
  | 116 => Some (ch 9)
  | _ => None
  end%N.

Definition prepend (pre : string) (r : option (string * string))
  : option (string * string) :=
  match r with
  | Some (s, rest) => Some (pre +:+ s, rest)
  | None => None
  end.

(** [scanstring], strict: the text starts after the opening quote. *)
Fixpoint scanstring (s : string) : option (string * string) :=
  match s with
  | "" => None
  | String c r =>
      if Ascii.eqb c dquote then Some ("", r)
      else if Ascii.eqb c backslash then
        match r with
        | "" => None
        | String e r1 =>
            if Ascii.eqb e "u" then
              match r1 with
              | String h1 (String h2 (String h3 (String h4 r2))) =>
                  match hex4 h1 h2 h3 h4 with
                  | None => None
                  | Some u =>
                      if is_high_surrogate u then
                        match r2 with
                        | String b (String v
                            (String g1 (String g2 (String g3 (String g4 r3))))) =>
                            if Ascii.eqb b backslash && Ascii.eqb v "u" then
                              match hex4 g1 g2 g3 g4 with
                              | None => None
                              | Some u2 =>
                                  if is_low_surrogate u2
                                  then prepend (utf8 (join_surrogates u u2))
                                               (scanstring r3)
                                  else prepend (utf8 u) (scanstring r2)
                              end
                            else prepend (utf8 u) (scanstring r2)
                        | _ => prepend (utf8 u) (scanstring r2)
                        end
                      else prepend (utf8 u) (scanstring r2)
                  end
              | _ => None
              end
            else
              match unescape e with
              | Some x => prepend (str1 x) (scanstring r1)
              | None => None
              end
        end
      else if (N_of_ascii c <? 32)%N then None
      else prepend (str1 c) (scanstring r)
  end.

Definition digit_of (c : ascii) : option (uint → uint) :=
  match N_of_ascii c with
  | 48 => Some D0 | 49 => Some D1 | 50 => Some D2 | 51 => Some D3
  | 52 => Some D4 | 53 => Some D5 | 54 => Some D6 | 55 => Some D7
  | 56 => Some D8 | 57 => Some D9
  | _ => None
  end%N.

Definition is_digit (c : ascii) : bool :=
  match digit_of c with
  | Some _ => true
  | None => false
  end.

(** The longest prefix [[0-9]*]. *)
Fixpoint span_digits (s : string) : uint * string :=
  match s with
  | "" => (Nil, "")
  | String c r =>
      match digit_of c with
      | Some d => let '(n, rest) := span_digits r in (d n, rest)
      | None => (Nil, s)
      end
  end.

Definition starts_with_digit (s : string) : bool :=
  match s with
  | String c _ => is_digit c
  | "" => false
  end.

(** Does the text continue the number with a fraction [\.[0-9]+] or an
    exponent [[eE][-+]?[0-9]+]?  Such a literal is a float. *)
Definition continues_as_float (s : string) : bool :=
  match s with
  | String c r =>
      match N_of_ascii c with
      | 46 => starts_with_digit r
      | 69 | 101 =>
          match r with
          | String x r' =>
              if Ascii.eqb x "-" || Ascii.eqb x "+" then starts_with_digit r'
              else is_digit x
          | "" => false
          end
      | _ => false
      end%N
  | "" => false
  end.

(** [NUMBER_RE], integer literals only. *)
Definition scan_number (s : string) : option (json * string) :=
  let '(neg, s1) :=
    match s with
    | String "-" r => (true, r)
    | _ => (false, s)
    end in
  let digits :=
    match s1 with
    | String "0" r => Some (D0 Nil, r)
    | String c _ => if is_digit c then Some (span_digits s1) else None
    | "" => None
    end in
  match digits with
  | Some (d, rest) =>
      if continues_as_float rest then None
      else
        let n := Z.of_N (N.of_uint d) in
        Some (JInt (if neg then - n else n)%Z, rest)
  | None => None
  end.

Definition expect (c : ascii) (s : string) : option string :=
  match s with
  | String a r => if Ascii.eqb a c then Some r else None
  | "" => None
  end.

Fixpoint scan_once (fuel : nat) (s : string) : option (json * string) :=
  match fuel with
  | O => None
  | S fuel =>
      match s with
      | "" => None
      | String c r =>
          if Ascii.eqb c dquote then
            '(x, rest) ← scanstring r; Some (JStr x, rest)
          else if Ascii.eqb c "{" then
            let r := skip_ws r in
            match expect "}" r with
            | Some rest => Some (JObj [], rest)
            | None =>
                r ← expect dquote r;
                '(pairs, rest) ← scan_members fuel r;
                Some (JObj (dict_of_pairs pairs), rest)
            end
          else if Ascii.eqb c "[" then
            let r := skip_ws r in
            match expect "]" r with
            | Some rest => Some (JArr [], rest)
            | None => '(l, rest) ← scan_items fuel r; Some (JArr l, rest)
            end
          else if str_prefix "null" s then Some (JNull, str_drop 4 s)
          else if str_prefix "true" s then Some (JBool true, str_drop 4 s)
          else if str_prefix "false" s then Some (JBool false, str_drop 5 s)
          else scan_number s
      end
  end
(** The loop of [JSONArray]: the text starts at an element. *)
with scan_items (fuel : nat) (s : string) : option (list json * string) :=
  match fuel with
  | O => None
  | S fuel =>
      '(v, r) ← scan_once fuel s;
      match skip_ws r with
      | String c r =>
          if Ascii.eqb c "]" then Some ([v], r)
          else if Ascii.eqb c "," then
            '(l, rest) ← scan_items fuel (skip_ws r);
            Some (v :: l, rest)
          else None
      | "" => None
      end
  end
(** The loop of [JSONObject]: the text starts after the opening quote of
    a key. *)
with scan_members (fuel : nat) (s : string) : option (dict * string) :=
  match fuel with
  | O => None
  | S fuel =>
      '(k, r) ← scanstring s;
      r ← expect ":" (skip_ws r);
      '(v, r) ← scan_once fuel (skip_ws r);
      match skip_ws r with
      | String c r =>
          if Ascii.eqb c "}" then Some ([(k, v)], r)
          else if Ascii.eqb c "," then
            r ← expect dquote (skip_ws r);
            '(d, rest) ← scan_members fuel r;
            Some ((k, v) :: d, rest)
          else None
      | "" => None
      end
  end.

(** A bound on the fuel that reading back the text of [v] takes. *)
Fixpoint weight (v : json) : nat :=
  match v with
  | JArr l => S (foldr (fun x n => S (weight x + n)) 0 l)
  | JObj d => S (foldr (fun kv n => S (weight kv.2 + n)) 0 d)
  | _ => 1
  end.

Definition loads (s : string) : option json :=
  '(v, rest) ← scan_once (S (String.length s)) (skip_ws s);
  match skip_ws rest with
  | "" => Some v
  | _ => None
  end.

(** ** The file system

    A file system maps resolved absolute paths (the list of component
    names from the root) to nodes.  The root is always a directory.
    There are no symbolic links and no permissions. *)

Inductive node :=
  | File (data : string)
  | Dir.

Abbreviation path := (list string).
Abbreviation filesystem := (gmap (list string) node).

Definition node_at (fs : filesystem) (p : path) : option node :=
  match p with
  | [] => Some Dir
  | _ => fs !! p
  end.

Definition is_dir (fs : filesystem) (p : path) : bool :=
  match node_at fs p with
  | Some Dir => true
  | _ => false
  end.

Definition is_file (fs : filesystem) (p : path) : bool :=
  match node_at fs p with
  | Some (File _) => true
  | _ => false
  end.

Definition proper_name (c : string) : bool :=
  negb (String.eqb c "" || String.eqb c "." || String.eqb c "..").

(** Path resolution: every component is looked up in a directory. *)
Fixpoint walk (fs : filesystem) (cur : path) (comps : list string)
  : option path :=
  match comps with
  | [] => Some cur
  | c :: comps =>
      if is_dir fs cur then
        if String.eqb c "" || String.eqb c "." then walk fs cur comps
        else if String.eqb c ".." then walk fs (removelast cur) comps
        else walk fs (cur ++ [c]) comps
      else None
  end.

Definition is_abs (s : string) : bool := str_prefix "/" s.

(** The node that [os.path.join(dir, name)] names, where [dir] is the
    resolved path of an absolute directory name: an absolute [name]
    replaces [dir]. *)
Definition resolve (fs : filesystem) (dir : path) (name : string)
  : option path :=
  walk fs (if is_abs name then [] else dir) (split_slash name).

Definition lookup_name (fs : filesystem) (dir : path) (name : string)
  : option node :=
  q ← resolve fs dir name; node_at fs q.

(** [os.path.exists(os.path.join(dir, name))]. *)
Definition os_path_exists (fs : filesystem) (dir : path) (name : string)
  : bool :=
  bool_decide (is_Some (lookup_name fs dir name)).

(** [os.path.isfile(os.path.join(dir, name))]. *)
Definition os_path_isfile (fs : filesystem) (dir : path) (name : string)
  : bool :=
  match lookup_name fs dir name with
  | Some (File _) => true
  | _ => false
  end.

(** [os.remove(os.path.join(dir, name))]. *)
Definition os_remove (fs : filesystem) (dir : path) (name : string)
  : outcome filesystem :=
  match resolve fs dir name with
  | None => Raise FileNotFoundError
  | Some q =>
      match node_at fs q with
      | Some (File _) => Return (delete q fs)
      | Some Dir => Raise IsADirectoryError
      | None => Raise FileNotFoundError
      end
  end.

(** [open(os.path.join(dir, name), 'wb')] followed by the write of
    [data]: this is what [FileStorage.save] does. *)
Definition save_as (fs : filesystem) (dir : path) (name data : string)
  : outcome filesystem :=
  match resolve fs dir name with
  | None => Raise FileNotFoundError
  | Some q =>
      match node_at fs q with
      | Some (File _) => Return (<[q := File data]> fs)
      | Some Dir => Raise IsADirectoryError
      | None =>
          if proper_name (List.last (split_slash name) "")
          then Return (<[q := File data]> fs)
          else Raise FileNotFoundError
      end
  end.

(** Reading and writing a text file named by its resolved path. *)
Definition read_text (fs : filesystem) (p : path) : outcome string :=
  match node_at fs p with
  | Some (File data) => Return data
  | Some Dir => Raise IsADirectoryError
  | None => Raise FileNotFoundError
  end.

Definition write_text (fs : filesystem) (p : path) (data : string)
  : outcome filesystem :=
  match node_at fs p with
  | Some Dir => Raise IsADirectoryError
  | _ => Return (<[p := File data]> fs)
  end.

(** ** [os.path] on names *)

Fixpoint has_non_dot (s : string) : bool :=
  match s with
  | "" => false
  | String c s => negb (Ascii.eqb c ".") || has_non_dot s
  end.

(** [os.path.splitext]: the extension starts at the last dot of the last
    component, unless only dots precede it there. *)
Definition splitext (p : string) : string * string :=
  match rfind "." p with
  | Some dotIndex =>
      let filenameIndex :=
        match rfind "/" p with
        | Some sepIndex => S sepIndex
        | None => 0
        end in
      if (filenameIndex <=? dotIndex)
         && has_non_dot (str_take (dotIndex - filenameIndex)
                                  (str_drop filenameIndex p))
      then (str_take dotIndex p, str_drop dotIndex p)
      else (p, "")
  | None => (p, "")
  end.

(** [posixpath.normpath]. *)
Definition normpath_step (initial_slashes : nat) (new_comps : list string)
    (comp : string) : list string :=
  if String.eqb comp "" || String.eqb comp "." then new_comps
  else if negb (String.eqb comp "..")
          || (bool_decide (initial_slashes = 0)
              && bool_decide (new_comps = []))
          || String.eqb (List.last new_comps "") ".."
  then new_comps ++ [comp]
  else removelast new_comps.

Definition normpath (p : string) : string :=
  if String.eqb p "" then "."
  else
    let initial_slashes :=
      if str_prefix "/" p then
        if str_prefix "//" p && negb (str_prefix "///" p) then 2 else 1
      else 0 in
    let comps :=
      fold_left (normpath_step initial_slashes) (split_slash p) [] in
    let r := join_slash comps in
    let r := match initial_slashes with
             | 0 => r
             | 1 => "/" +:+ r
             | _ => "//" +:+ r
             end in
    if String.eqb r "" then "." else r.

(** ** Werkzeug and Flask *)

(** [werkzeug.security.safe_join(directory, name)]: the name to join to
    the directory, or [None]. *)
Definition safe_join (name : string) : option string :=
  let name := if String.eqb name "" then name else normpath name in
  if is_abs name || String.eqb name ".." || str_prefix "../" name
  then None
  else Some name.

Inductive response :=
  | Jsonify (status : nat) (body : json)
  | Attachment (file : path) (data : string)
  | Abort (status : nat).

(** [send_from_directory(dir, name, as_attachment=True)]. *)
Definition send_from_directory (fs : filesystem) (dir : path) (name : string)
  : response :=
  match safe_join name with
  | None => Abort 404
  | Some name =>
      match resolve fs dir name with
      | Some q =>
          match node_at fs q with
          | Some (File data) => Attachment q data
          | _ => Abort 404
          end
      | None => Abort 404
      end
  end.

(** The converter of a rule variable [<name>]: one non-empty URL segment
    without a slash. *)
Definition route_segment (s : string) : option string :=
  if String.eqb s "" || has_char "/" s then None else Some s.

(** The limit that Flask enforces on [request.content_length]. *)
Definition MAX_CONTENT_LENGTH : Z := 5000 * 1024 * 1024.

Definition request_entity_too_large (content_length : Z) : bool :=
  (MAX_CONTENT_LENGTH <? content_length)%Z.

(** ** [format_size]

    [size] is the [int] [stat.st_size] at first and a [float] from the
    first [size /= 1024] on.  Below [2^53] the conversion of the [int] is
    exact, and a division by 1024 changes the exponent only, so after
    [k] divisions the value is the rational [n / 1024^k] for the size
    [n] in bytes.  The model holds it as the pair of [n] and [k]. *)

(** [f"{x:.1f}"] for [x = n / 1024^k]: the nearest multiple of one
    tenth, an exact half going to the even multiple, as the conversion
    of CPython rounds. *)
Definition format_1f (n : N) (k : nat) : string :=
  let d := (1024 ^ N.of_nat k)%N in
  let q := (10 * n / d)%N in
  let r := (10 * n mod d)%N in
  let tenths :=
    if (2 * r <? d)%N then q
    else if (d <? 2 * r)%N then (q + 1)%N
    else if N.even q then q else (q + 1)%N in
  int_repr (Z.of_N (tenths / 10)) +:+ "." +:+ int_repr (Z.of_N (tenths mod 10)).

(** The loop [for unit in ['B', 'KB', 'MB', 'GB']] from the [k]-th unit
    on; the test [size < 1024] compares [n / 1024^k] with 1024. *)
Fixpoint format_size_loop (units : list string) (n : N) (k : nat) : string :=
  match units with
  | [] => format_1f n k +:+ " TB"
  | unit :: units =>
      if (n <? 1024 * 1024 ^ N.of_nat k)%N
      then format_1f n k +:+ " " +:+ unit
      else format_size_loop units n (S k)
  end.

Definition format_size (size : N) : string :=
  format_size_loop ["B"; "KB"; "MB"; "GB"] size 0.

(** ** The application *)

Section App.

(** [os.path.dirname(os.path.abspath(__file__))], resolved. *)
Variable app_dir : path.

Definition UPLOAD_FOLDER : path := app_dir ++ ["uploads"].
Definition TEXT_FILE : path := app_dir ++ ["texts.json"].

Definition handler : Type := filesystem → outcome response * filesystem.

Definition error (status : nat) (msg : string) : response :=
  Jsonify status (JObj [("error", JStr msg)]).

Definition success : response := Jsonify 200 (JObj [("success", JBool true)]).

(** *** The text store *)

Definition load_texts (fs : filesystem) : outcome json :=
  if bool_decide (is_Some (node_at fs TEXT_FILE)) then
    try s <- read_text fs TEXT_FILE;
    match loads s with
    | Some v => Return v
    | None => Raise JSONDecodeError
    end
  else Return (JArr []).

Definition save_texts (texts : json) (fs : filesystem)
  : outcome filesystem :=
  write_text fs TEXT_FILE (dumps texts).

(** *** [POST /upload] *)

(** The loop [while os.path.exists(filepath)].  [counter] is the next
    suffix to try and [filename] the name under test; the loop gives up
    when the fuel is spent. *)
Fixpoint next_free (fs : filesystem) (base ext : string)
    (fuel counter : nat) (filename : string) : option string :=
  if os_path_exists fs UPLOAD_FOLDER filename then
    match fuel with
    | O => None
    | S fuel =>
        next_free fs base ext fuel (S counter)
                  (base +:+ "_" +:+ dec counter +:+ ext)
    end
  else Some filename.

(** [file] is [request.files.get('file')]: the client's file name and
    the bytes.  The result is [None] only if the loop runs out of fuel
    ([upload_file_total] shows that it does not). *)
Definition upload_file (file : option (string * string)) (fs : filesystem)
  : option (outcome response * filesystem) :=
  match file with
  | None => Some (Return (error 400 "没有文件"), fs)
  | Some (name, data) =>
      if String.eqb name "" then Some (Return (error 400 "没有选择文件"), fs)
      else
        let '(base, ext) := splitext name in
        filename ← next_free fs base ext (S (size fs)) 1 name;
        match save_as fs UPLOAD_FOLDER filename data with
        | Return fs' =>
            Some (Return (Jsonify 200 (JObj [("success", JBool true);
                                             ("filename", JStr filename)])),
                  fs')
        | Raise e => Some (Raise e, fs)
        end
  end.

(** *** [GET /download/<filename>] *)

Definition download_file (filename : string) : handler := fun fs =>
  (Return (send_from_directory fs UPLOAD_FOLDER filename), fs).

(** *** [POST /delete/<filename>] *)

Definition delete_file (filename : string) : handler := fun fs =>
  if os_path_exists fs UPLOAD_FOLDER filename then
    match os_remove fs UPLOAD_FOLDER filename with
    | Return fs' => (Return success, fs')
    | Raise e => (Raise e, fs)
    end
  else (Return (error 404 "文件不存在"), fs).

(** *** [POST /text]

    [data] is [request.get_json()], [u] the value of [uuid.uuid4()]
    and [now] the text of [datetime.now().strftime(...)]. *)

Definition new_text (u : N) (content now : string) : json :=
  JObj [("id", JStr (str_take 8 (uuid_str u)));
        ("content", JStr content);
        ("time", JStr now)].

Definition add_text (data : json) (u : N) (now : string) : handler :=
  fun fs =>
  let missing :=
    if negb (truthy data) then Return true
    else try b <- py_in "content" data; Return (negb b) in
  match missing with
  | Raise e => (Raise e, fs)
  | Return true => (Return (error 400 "没有内容"), fs)
  | Return false =>
      match (try c <- py_getitem data "content"; py_strip c) with
      | Raise e => (Raise e, fs)
      | Return content =>
          if String.eqb content "" then
            (Return (error 400 "内容不能为空"), fs)
          else
            match (try texts <- load_texts fs;
                   py_insert0 texts (new_text u content now)) with
            | Raise e => (Raise e, fs)
            | Return texts =>
                match save_texts texts fs with
                | Return fs' => (Return success, fs')
                | Raise e => (Raise e, fs)
                end
            end
      end
  end.

(** *** [DELETE /text/<text_id>] *)

Definition delete_text (text_id : string) : handler := fun fs =>
  match (try texts <- load_texts fs; py_filter_ids text_id texts) with
  | Raise e => (Raise e, fs)
  | Return texts =>
      match save_texts texts fs with
      | Return fs' => (Return success, fs')
      | Raise e => (Raise e, fs)
      end
  end.

(** *** [POST /clear-texts] *)

Definition clear_texts : handler := fun fs =>
  match save_texts (JArr []) fs with
  | Return fs' => (Return success, fs')
  | Raise e => (Raise e, fs)
  end.

(** *** Routing

    A request for [/download/x] or [/delete/x] reaches its handler only
    if [x] matches the rule variable; otherwise Flask answers 404. *)

Definition route (h : string → handler) (tail : string) : handler :=
  fun fs =>
  match route_segment tail with
  | Some x => h x fs
  | None => (Return (Abort 404), fs)
  end.

Definition GET_download : string → handler := route download_file.
Definition POST_delete : string → handler := route delete_file.
Definition DELETE_text : string → handler := route delete_text.

End App.

(** ** [get_files] and [GET /] *)

(** The key [x['time']] of an entry of the list; every entry that
    [get_files] builds has one. *)
Definition time_of (x : json) : string :=
  match x with
  | JObj d =>
      match dict_get "time" d with
      | Some (JStr s) => s
      | _ => ""
      end
  | _ => ""
  end.

(** [files.sort(key=..., reverse=True)]: the sort is stable, so of two
    entries with the same key the one that came first stays first. *)
Fixpoint insert_desc (x : json) (l : list json) : list json :=
  match l with
  | [] => [x]
  | y :: l' =>
      if String.ltb (time_of x) (time_of y) then y :: insert_desc x l'
      else x :: l
  end.

Definition sort_by_time_desc (l : list json) : list json :=
  foldr insert_desc [] l.

Section Listing.
Variable app_dir : path.

(** [listing] is the list that [os.listdir(UPLOAD_FOLDER)] returns, in
    the order in which the operating system gives the names, and
    [mtime filename] is the text of
    [datetime.fromtimestamp(stat.st_mtime).strftime(...)] for the entry
    [filename]. *)
Variable listing : list string.
Variable mtime : string → string.

(** The dict of one file; [stat.st_size] is the number of its bytes. *)
Definition file_entry (filename : string) (data : string) : json :=
  JObj [("name", JStr filename);
        ("size", JStr (format_size (N.of_nat (String.length data))));
        ("time", JStr (mtime filename))].

(** The loop over the names: the regular files among them, in the
    order of the names. *)
Fixpoint list_files (fs : filesystem) (names : list string) : list json :=
  match names with
  | [] => []
  | filename :: names =>
      match lookup_name fs (UPLOAD_FOLDER app_dir) filename with
      | Some (File data) => file_entry filename data :: list_files fs names
      | _ => list_files fs names
      end
  end.

Definition get_files (fs : filesystem) : outcome (list json) :=
  match node_at fs (UPLOAD_FOLDER app_dir) with
  | Some Dir => Return (sort_by_time_desc (list_files fs listing))
  | Some (File _) => Raise NotADirectoryError
  | None => Raise FileNotFoundError
  end.


End Listing.

(** ** Vocabulary of the properties *)

(** The value of the [content] field of a request body, if the body is an
    object that has one. *)
Definition content_field (data : json) : option json :=
  match data with
  | JObj d => dict_get "content" d
  | _ => None
  end.

(** A name with a directory separator or a parent reference. *)
Definition has_parent_reference (s : string) : bool :=
  existsb (String.eqb "..") (split_slash s).

Definition path_escaping (s : string) : bool :=
  has_char "/" s || has_parent_reference s.

(** The [id] of every element of the text list that has one. *)
Definition text_id_of (t : json) : option json :=
  match t with
  | JObj d => dict_get "id" d
  | _ => None
  end.

Definition text_ids (l : list json) : list json := omap text_id_of l.

(** Whether the snippet [t] has the id [text_id]. *)
Definition has_id (text_id : string) (t : json) : bool :=
  match text_id_of t with
  | Some i => is_str text_id i
  | None => false
  end.

(** The unit that [format_size] shows after [k] divisions. *)
Definition unit_name (k : nat) : string :=
  nth k ["B"; "KB"; "MB"; "GB"] "TB".

(** [x] does not come after an entry with a later time. *)
Definition newer_first (x y : json) : Prop :=
  String.ltb (time_of x) (time_of y) = false.

(** The [k]-th name that the upload loop tries for the name [name]. *)
Definition candidate (name : string) (k : nat) : string :=
  (splitext name).1 +:+ "_" +:+ dec k +:+ (splitext name).2.

(** [save_texts(load_texts())]. *)
Definition save_load_cycle (app_dir : path) (fs : filesystem)
  : outcome filesystem :=
  try texts <- load_texts app_dir fs; save_texts app_dir texts fs.

(** A component that names an entry: not empty, not [.], not [..], and
    without a separator. *)
Definition plain (c : string) : Prop :=
  proper_name c = true ∧ has_char "/" c = false.

(** The components that [normpath] keeps for a relative name: parent
    references first, plain components after them. *)
Definition normal_comps (l : list string) : Prop :=
  ∃ n names, l = repeat ".." n ++ names ∧ Forall plain names.

(** ** A concrete installation, for examples *)

Definition example_dir : path := ["srv"; "lanshare"].

(** The state after start-up: the upload directory exists and is
    empty, and there is no [texts.json]. *)
Definition example_fs : filesystem :=
  {[ ["srv"] := Dir; example_dir := Dir; UPLOAD_FOLDER example_dir := Dir ]}.

(** The upload directory holds [a.txt]. *)
Definition example_fs_a : filesystem :=
  <[UPLOAD_FOLDER example_dir ++ ["a.txt"] := File "one"]> example_fs.

(** The upload directory holds a subdirectory [sub]. *)
Definition example_fs_sub : filesystem :=
  <[UPLOAD_FOLDER example_dir ++ ["sub"] := Dir]> example_fs.

(** Two version-4 UUIDs that differ in their last bit. *)
Definition example_uuid : N := 0x0123456789ab4cde8f0123456789abcc.

(** [texts.json] holds one snippet. *)
Definition example_fs_text : filesystem :=
  <[TEXT_FILE example_dir :=
      File (dumps (JArr [new_text example_uuid "hello"
                                  "2024-01-01 00:00:00"]))]> example_fs.

(** [texts.json] holds text that is not JSON. *)
Definition example_fs_corrupt : filesystem :=
  <[TEXT_FILE example_dir := File "not json"]> example_fs.

(** [texts.json] holds a list written by hand, without indentation. *)
Definition example_fs_compact : filesystem :=
  <[TEXT_FILE example_dir := File "[1,2]"]> example_fs.


(** The upload directory has been removed. *)
Definition example_fs_bare : filesystem :=
  {[ ["srv"] := Dir; example_dir := Dir ]}.

(** The times of the files: [a.txt] is the older one. *)
Definition example_mtime (filename : string) : string :=
  if String.eqb filename "a.txt" then "2024-01-01 00:00:00"
  else "2024-01-02 00:00:00".

(** The upload directory holds [a.txt], [b.txt] and the directory [sub]. *)
Definition example_fs_ab : filesystem :=
  <[UPLOAD_FOLDER example_dir ++ ["b.txt"] := File "two"]>
    (<[UPLOAD_FOLDER example_dir ++ ["sub"] := Dir]> example_fs_a).

(** ** Notions used in the proofs about JSON text *)

Definition number_end (rest : string) : Prop :=
  starts_with_digit rest = false ∧ continues_as_float rest = false.

(** The first character of a number is a digit or the sign. *)
Definition number_start (c : ascii) : bool := Ascii.eqb c "-" || is_digit c.

Definition starts_value (s : string) : Prop :=
  ∃ c r, s = String c r ∧ is_ws c = false ∧ Ascii.eqb c "]" = false.

(** The property proved of every value by induction. *)
Definition reads_back (v : json) : Prop :=
  wf_json v = true →
  ∀ level fuel rest,
    weight v ≤ fuel → number_end rest →
    scan_once fuel (iterencode level v +:+ rest) = Some (v, rest).

Definition items_weight (l : list json) : nat :=
  foldr (fun x n => S (weight x + n)) 0 l.

Definition members_weight (d : dict) : nat :=
  foldr (fun kv n => S (weight kv.2 + n)) 0 d.

Definition member_text (level : nat) (kv : string * json) : string :=
  encode_basestring kv.1 +:+ ": " +:+ iterencode level kv.2.

(** * Properties *)

(** ** Request size limit *)

(** C7: the limit on the request body is the literal of the source,
    5000 * 1024 * 1024 bytes, so a body of 500 MiB + 1 byte is not
    rejected. *)
Theorem max_content_length_is_5000_MiB :
  MAX_CONTENT_LENGTH = 5242880000%Z ∧
  request_entity_too_large (500 * 1024 * 1024 + 1) = false.
Proof. split; reflexivity. Qed.

Lemma request_entity_too_large_iff n :
  request_entity_too_large n = true ↔ (5000 * 1024 * 1024 < n)%Z.
Proof.
  unfold request_entity_too_large, MAX_CONTENT_LENGTH.
  rewrite Z.ltb_lt. lia.
Qed.

(** ** [POST /text]: request validation *)

Section AddTextValidation.
Context (app_dir : path).

Lemma truthy_nonempty_dict d k v :
  dict_get k d = Some v → truthy (JObj d) = true.
Proof. destruct d; [discriminate|reflexivity]. Qed.

(** C10: when the body is an object whose [content] is not a string,
    [.strip()] raises [AttributeError]; no 400 response is produced
    and nothing is written. *)
Theorem add_text_non_string_content d v u now fs :
  dict_get "content" d = Some v →
  (∀ s, v ≠ JStr s) →
  add_text app_dir (JObj d) u now fs = (Raise AttributeError, fs).
Proof.
  intros Hget Hv. unfold add_text.
  rewrite (truthy_nonempty_dict _ _ _ Hget). simpl.
  rewrite Hget. simpl.
  destruct v; try reflexivity. by destruct (Hv s).
Qed.

(** The first 400 response is produced exactly when the body is falsy
    or does not contain [content]. *)
Lemma add_text_no_content_iff data u now fs :
  add_text app_dir data u now fs = (Return (error 400 "没有内容"), fs) ↔
  truthy data = false ∨ py_in "content" data = Return false.
Proof.
  unfold add_text. destruct (truthy data) eqn:Ht; simpl.
  - destruct (py_in "content" data) as [[]|e] eqn:Hin; simpl.
    + split; [|intros [|]; discriminate].
      destruct (obind _ _) as [content|e]; [|discriminate].
      destruct (String.eqb content ""); [discriminate|].
      destruct (obind _ _); [|discriminate].
      destruct (save_texts _ _ _); discriminate.
    + split; auto.
    + split; [discriminate|intros [|]; discriminate].
  - split; auto.
Qed.

(** X16: a 400 response implies that the body has no [content] field or
    that the field is a string that is empty once trimmed. *)
Lemma add_text_400_only_if data u now fs body fs' :
  add_text app_dir data u now fs = (Return (Jsonify 400 body), fs') →
  content_field data = None ∨
  ∃ s, content_field data = Some (JStr s) ∧ strip s = "".
Proof.
  unfold add_text. destruct (truthy data) eqn:Ht; simpl.
  - destruct (py_in "content" data) as [[]|e] eqn:Hin; simpl;
      [| |discriminate].
    + destruct data as [| | | |l|d]; simpl in *; try discriminate; auto.
      destruct (dict_get "content" d) as [v|] eqn:Hget; simpl; auto.
      destruct v as [| | |s| |]; simpl; try discriminate.
      destruct (String.eqb (strip s) "") eqn:Hs.
      * intros _. right. apply String.eqb_eq in Hs. eauto.
      * destruct (obind _ _); [|discriminate].
        destruct (save_texts _ _ _); discriminate.
    + intros _. destruct data as [| | | |l|d]; simpl in *; auto.
      destruct (dict_get "content" d); [|auto].
      rewrite bool_decide_eq_true_2 in Hin by eauto. discriminate.
  - intros _. destruct data as [| | | |l|d]; simpl in *; auto.
    destruct d; [auto|discriminate].
Qed.



End AddTextValidation.

(** ** Names and path components *)

Lemma split_slash_no_slash s : has_char "/" s = false → split_slash s = [s].
Proof.
  induction s as [|c s IH]; simpl; [done|].
  destruct (Ascii.eqb c "/"); simpl; [done|].
  intros Hs. by rewrite IH.
Qed.

Lemma split_slash_nonempty s : split_slash s ≠ [].
Proof.
  destruct s as [|c s]; simpl; [done|].
  destruct (Ascii.eqb c "/"); [done|]. by destruct (split_slash s).
Qed.

(** ** [GET /download/<filename>] and [POST /delete/<filename>] *)

Section Files.
Context (app_dir : path).

(** C2: a request for a name with a directory separator or a parent
    reference is answered 404 and no file is read: a name with a
    separator does not match the rule variable, and [safe_join]
    refuses the name [..]. *)
Theorem download_refuses_escaping_names tail fs :
  path_escaping tail = true →
  GET_download app_dir tail fs = (Return (Abort 404), fs).
Proof.
  unfold path_escaping, GET_download, route, route_segment.
  destruct (has_char "/" tail) eqn:Hsep; cbn [orb].
  - intros _. by rewrite orb_true_r.
  - unfold has_parent_reference.
    rewrite (split_slash_no_slash _ Hsep). cbn [existsb].
    rewrite orb_false_r. intros Heq. apply String.eqb_eq in Heq.
    subst tail. reflexivity.
Qed.

Lemma delete_file_regular filename fs q data :
  resolve fs (UPLOAD_FOLDER app_dir) filename = Some q →
  node_at fs q = Some (File data) →
  delete_file app_dir filename fs = (Return success, delete q fs).
Proof.
  intros Hq Hnode. unfold delete_file, os_path_exists, os_remove, lookup_name.
  rewrite Hq. simpl. rewrite Hnode.
  by rewrite bool_decide_eq_true_2 by eauto.
Qed.

Lemma delete_file_missing filename fs :
  lookup_name fs (UPLOAD_FOLDER app_dir) filename = None →
  delete_file app_dir filename fs = (Return (error 404 "文件不存在"), fs).
Proof.
  intros Hnone. unfold delete_file, os_path_exists. rewrite Hnone.
  by rewrite bool_decide_eq_false_2 by (intros [? ?]; discriminate).
Qed.

(** C3: when the name is that of a directory, [os.path.exists] holds
    and [os.remove] raises: the handler answers neither success nor
    404. *)
Theorem delete_file_directory_raises filename fs :
  lookup_name fs (UPLOAD_FOLDER app_dir) filename = Some Dir →
  delete_file app_dir filename fs = (Raise IsADirectoryError, fs).
Proof.
  intros Hdir. unfold delete_file, os_path_exists. rewrite Hdir.
  rewrite bool_decide_eq_true_2 by eauto.
  unfold lookup_name in Hdir. unfold os_remove.
  destruct (resolve fs (UPLOAD_FOLDER app_dir) filename) as [q|];
    [|discriminate].
  simpl in Hdir. by rewrite Hdir.
Qed.

End Files.

(** * JSON text: what is written is read back *)

(** ** Text *)

Lemma app_cons c s t : String c s +:+ t = String c (s +:+ t).
Proof. reflexivity. Qed.

Lemma app_empty_r s : s +:+ "" = s.
Proof. induction s as [|c s IH]; [done|]. by rewrite app_cons, IH. Qed.

Lemma str_app_assoc a b c : (a +:+ b) +:+ c = a +:+ (b +:+ c).
Proof. induction a as [|x a IH]; [done|]. by rewrite !app_cons, IH. Qed.

Lemma length_app a b :
  String.length (a +:+ b) = String.length a + String.length b.
Proof.
  induction a as [|x a IH]; [done|]. rewrite app_cons. simpl. by rewrite IH.
Qed.

(** ** Strings of JSON *)

Lemma scanstring_escape_char c x :
  scanstring (escape_char c +:+ x) = prepend (str1 c) (scanstring x).
Proof. destruct c as [[] [] [] [] [] [] [] []]; reflexivity. Qed.

Lemma scanstring_escape s rest :
  scanstring (escape s +:+ String dquote rest) = Some (s, rest).
Proof.
  induction s as [|c s IH]; [reflexivity|].
  change (escape (String c s)) with (escape_char c +:+ escape s).
  by rewrite str_app_assoc, scanstring_escape_char, IH.
Qed.

Lemma scanstring_basestring s rest :
  encode_basestring s +:+ rest = String dquote (escape s +:+ String dquote rest).
Proof.
  unfold encode_basestring. rewrite app_cons. f_equal.
  by rewrite str_app_assoc.
Qed.

(** ** Integers of JSON *)

Lemma nzhead_not_D0 d d' : nzhead d ≠ D0 d'.
Proof. induction d; simpl; congruence. Qed.

Lemma to_uint_head p : ∀ d, Pos.to_uint p ≠ D0 d.
Proof.
  intros d Hd.
  pose proof (DecimalPos.Unsigned.to_of (Pos.to_uint p)) as H.
  rewrite DecimalPos.Unsigned.of_to in H. simpl in H. rewrite Hd in H.
  unfold unorm in H. simpl in H.
  destruct (nzhead d) eqn:Hn; try (by eapply nzhead_not_D0; rewrite Hn, H).
  injection H as ->. by apply (DecimalPos.Unsigned.to_uint_nonzero p).
Qed.

Lemma span_digits_uint d rest :
  starts_with_digit rest = false →
  span_digits (NilEmpty.string_of_uint d +:+ rest) = (d, rest).
Proof.
  intros Hrest.
  induction d; simpl NilEmpty.string_of_uint; rewrite ?app_cons;
    try (cbn [span_digits]; rewrite IHd; reflexivity).
  change ("" +:+ rest) with rest.
  destruct rest as [|c r]; [reflexivity|].
  simpl in Hrest. unfold is_digit in Hrest. simpl.
  by destruct (digit_of c).
Qed.

Lemma scan_number_pos p rest :
  number_end rest →
  scan_number (NilEmpty.string_of_uint (Pos.to_uint p) +:+ rest)
  = Some (JInt (Z.pos p), rest).
Proof.
  intros [Hd Hf].
  pose proof (span_digits_uint (Pos.to_uint p) rest Hd) as Hspan.
  pose proof (DecimalPos.Unsigned.of_to p) as Hof.
  pose proof (to_uint_head p) as Hhead.
  pose proof (DecimalPos.Unsigned.to_uint_nonnil p) as Hnil.
  destruct (Pos.to_uint p) as [|u|u|u|u|u|u|u|u|u|u] eqn:Hu;
    [done|by destruct (Hhead u)|..];
    simpl NilEmpty.string_of_uint in *; rewrite app_cons in *;
    unfold scan_number; cbv beta iota;
    (lazymatch goal with
     | |- context [is_digit ?c] => change (is_digit c) with true
     end);
    cbv beta iota; rewrite Hspan, Hf; unfold N.of_uint; rewrite Hof;
    reflexivity.
Qed.

Lemma scan_number_neg p rest :
  number_end rest →
  scan_number (String "-" (NilEmpty.string_of_uint (Pos.to_uint p) +:+ rest))
  = Some (JInt (Z.neg p), rest).
Proof.
  intros [Hd Hf].
  pose proof (span_digits_uint (Pos.to_uint p) rest Hd) as Hspan.
  pose proof (DecimalPos.Unsigned.of_to p) as Hof.
  pose proof (to_uint_head p) as Hhead.
  pose proof (DecimalPos.Unsigned.to_uint_nonnil p) as Hnil.
  destruct (Pos.to_uint p) as [|u|u|u|u|u|u|u|u|u|u] eqn:Hu;
    [done|by destruct (Hhead u)|..];
    simpl NilEmpty.string_of_uint in *; rewrite app_cons in *;
    unfold scan_number; cbv beta iota;
    (lazymatch goal with
     | |- context [is_digit ?c] => change (is_digit c) with true
     end);
    cbv beta iota; rewrite Hspan, Hf; unfold N.of_uint; rewrite Hof;
    reflexivity.
Qed.

Lemma string_of_uint_nonnil d :
  d ≠ Nil → NilZero.string_of_uint d = NilEmpty.string_of_uint d.
Proof. by destruct d. Qed.

Lemma scan_number_int z rest :
  number_end rest → scan_number (int_repr z +:+ rest) = Some (JInt z, rest).
Proof.
  intros Hrest. destruct z as [|p|p]; unfold int_repr; simpl Z.to_int;
    unfold NilZero.string_of_int.
  - destruct Hrest as [_ Hf]. change (scan_number (String "0" rest) = Some (JInt 0, rest)).
    unfold scan_number. cbv beta iota. by rewrite Hf.
  - rewrite string_of_uint_nonnil by apply DecimalPos.Unsigned.to_uint_nonnil.
    by apply scan_number_pos.
  - rewrite string_of_uint_nonnil by apply DecimalPos.Unsigned.to_uint_nonnil.
    rewrite app_cons. by apply scan_number_neg.
Qed.

Lemma int_repr_start z : ∃ c r, int_repr z = String c r ∧ number_start c = true.
Proof.
  destruct z as [|p|p]; unfold int_repr; simpl Z.to_int;
    unfold NilZero.string_of_int; [by eexists _, _|..].
  - rewrite string_of_uint_nonnil by apply DecimalPos.Unsigned.to_uint_nonnil.
    pose proof (DecimalPos.Unsigned.to_uint_nonnil p).
    destruct (Pos.to_uint p); [done|..]; by eexists _, _.
  - by eexists _, _.
Qed.

Lemma scan_once_number fuel c r :
  number_start c = true →
  scan_once (S fuel) (String c r) = scan_number (String c r).
Proof.
  destruct c as [[] [] [] [] [] [] [] []]; try discriminate; reflexivity.
Qed.

Lemma number_start_not_ws c :
  number_start c = true → is_ws c = false ∧ Ascii.eqb c "]" = false.
Proof. destruct c as [[] [] [] [] [] [] [] []]; try discriminate; done. Qed.

(** ** White space *)

Lemma skip_ws_spaces n x : skip_ws (spaces n +:+ x) = skip_ws x.
Proof. induction n as [|n IH]; [done|]. simpl spaces. by rewrite app_cons. Qed.

Lemma skip_ws_newline_indent n x : skip_ws (newline_indent n +:+ x) = skip_ws x.
Proof.
  unfold newline_indent. rewrite app_cons.
  change (skip_ws (String (ch 10) ?s)) with (skip_ws s).
  apply skip_ws_spaces.
Qed.

Lemma skip_ws_value s : starts_value s → skip_ws s = s.
Proof. intros (c & r & -> & Hc & _). simpl. by rewrite Hc. Qed.

Lemma starts_value_app s x : starts_value s → starts_value (s +:+ x).
Proof. intros (c & r & -> & Hc). exists c, (r +:+ x). by rewrite app_cons. Qed.

Lemma iterencode_starts_value level v : starts_value (iterencode level v).
Proof.
  destruct v as [|[]|z|s|[|x l]|[|kv d]]; try by eexists _, _.
  destruct (int_repr_start z) as (c & r & Hr & Hc).
  exists c, r. split; [done|]. by apply number_start_not_ws.
Qed.

(** ** Values of JSON *)

Lemma json_ind_nested (P : json → Prop) :
  P JNull → (∀ b, P (JBool b)) → (∀ z, P (JInt z)) → (∀ s, P (JStr s)) →
  (∀ l, Forall P l → P (JArr l)) →
  (∀ d, Forall (fun kv => P kv.2) d → P (JObj d)) →
  ∀ v, P v.
Proof.
  intros HN HB HI HS HA HO. fix IH 1.
  intros [|b|z|s|l|d]; [exact HN|apply HB|apply HI|apply HS|..].
  - apply HA. induction l as [|x l IHl]; constructor; [apply IH|exact IHl].
  - apply HO. induction d as [|[k x] d IHd]; constructor; [apply IH|exact IHd].
Qed.

Lemma bind_some {A B} (x : A) (f : A → option B) : Some x ≫= f = f x.
Proof. reflexivity. Qed.

Lemma str_join_cons sep a b l :
  str_join sep (a :: b :: l) = a +:+ sep +:+ str_join sep (b :: l).
Proof. reflexivity. Qed.

Lemma str_join_starts_value sep a l :
  starts_value a → starts_value (str_join sep (a :: l)).
Proof. destruct l; [done|]. rewrite str_join_cons. apply starts_value_app. Qed.

Lemma expect_cons c a r :
  expect c (String a r) = if Ascii.eqb a c then Some r else None.
Proof. reflexivity. Qed.

Lemma scan_once_str fuel r :
  scan_once (S fuel) (String dquote r)
  = '(x, rest) ← scanstring r; Some (JStr x, rest).
Proof. reflexivity. Qed.

Lemma scan_once_arr fuel r :
  scan_once (S fuel) (String "[" r)
  = match expect "]" (skip_ws r) with
    | Some rest => Some (JArr [], rest)
    | None => '(l, rest) ← scan_items fuel (skip_ws r); Some (JArr l, rest)
    end.
Proof. reflexivity. Qed.

Lemma scan_once_obj fuel r :
  scan_once (S fuel) (String "{" r)
  = match expect "}" (skip_ws r) with
    | Some rest => Some (JObj [], rest)
    | None =>
        r ← expect dquote (skip_ws r);
        '(pairs, rest) ← scan_members fuel r;
        Some (JObj (dict_of_pairs pairs), rest)
    end.
Proof. reflexivity. Qed.

Lemma scan_items_eq fuel s :
  scan_items (S fuel) s
  = '(v, r) ← scan_once fuel s;
    match skip_ws r with
    | String c r =>
        if Ascii.eqb c "]" then Some ([v], r)
        else if Ascii.eqb c "," then
          '(l, rest) ← scan_items fuel (skip_ws r); Some (v :: l, rest)
        else None
    | "" => None
    end.
Proof. reflexivity. Qed.

Lemma scan_members_eq fuel s :
  scan_members (S fuel) s
  = '(k, r) ← scanstring s;
    r ← expect ":" (skip_ws r);
    '(v, r) ← scan_once fuel (skip_ws r);
    match skip_ws r with
    | String c r =>
        if Ascii.eqb c "}" then Some ([(k, v)], r)
        else if Ascii.eqb c "," then
          r ← expect dquote (skip_ws r);
          '(d, rest) ← scan_members fuel r;
          Some ((k, v) :: d, rest)
        else None
    | "" => None
    end.
Proof. reflexivity. Qed.

Lemma number_end_comma r : number_end (String "," r).
Proof. done. Qed.

Lemma number_end_newline_indent n r : number_end (newline_indent n +:+ r).
Proof. done. Qed.

Lemma number_end_empty : number_end "".
Proof. done. Qed.

Lemma scan_items_join level l x fuel rest :
  Forall reads_back (x :: l) →
  forallb wf_json (x :: l) = true →
  items_weight (x :: l) ≤ fuel →
  scan_items fuel
    (str_join ("," +:+ newline_indent (S level))
              (iterencode (S level) <$> (x :: l))
     +:+ newline_indent level +:+ String "]" rest)
  = Some (x :: l, rest).
Proof.
  revert x fuel. induction l as [|y l IH]; intros x fuel HP Hwf Hfuel.
  - apply Forall_cons_1 in HP as [Hx _].
    simpl in Hwf. rewrite andb_true_r in Hwf.
    destruct fuel as [|fuel]; [simpl in Hfuel; lia|].
    rewrite scan_items_eq. simpl fmap. simpl str_join.
    rewrite Hx; [|done|simpl in Hfuel; lia|apply number_end_newline_indent].
    rewrite bind_some. cbv beta iota.
    rewrite skip_ws_newline_indent. reflexivity.
  - apply Forall_cons_1 in HP as [Hx HP].
    simpl in Hwf. apply andb_true_iff in Hwf as [Hwx Hwf].
    destruct fuel as [|fuel]; [simpl in Hfuel; lia|].
    rewrite scan_items_eq.
    rewrite !fmap_cons, str_join_cons, <- !fmap_cons, !str_app_assoc.
    rewrite Hx; [|done|simpl in Hfuel |- *; lia|apply number_end_comma].
    rewrite bind_some. cbv beta iota.
    change ("," +:+ ?r) with (String "," r).
    change (skip_ws (String "," ?r)) with (String "," r).
    cbv beta iota.
    change (Ascii.eqb "," "]") with false.
    change (Ascii.eqb "," ",") with true. cbv beta iota.
    rewrite skip_ws_newline_indent.
    rewrite skip_ws_value
      by (apply starts_value_app; rewrite fmap_cons;
          apply str_join_starts_value, iterencode_starts_value).
    rewrite IH; [done|done|done|simpl in Hfuel |- *; lia].
Qed.

Lemma member_text_app level k v x :
  member_text level (k, v) +:+ x
  = String dquote (escape k +:+
      String dquote (String ":" (String " " (iterencode level v +:+ x)))).
Proof.
  unfold member_text. cbn [fst snd].
  rewrite !str_app_assoc, scanstring_basestring. reflexivity.
Qed.

Lemma scan_members_join level d kv fuel rest :
  Forall (fun kv => reads_back kv.2) (kv :: d) →
  forallb (fun kv => wf_json kv.2) (kv :: d) = true →
  members_weight (kv :: d) ≤ fuel →
  expect dquote
    (str_join ("," +:+ newline_indent (S level))
              (member_text (S level) <$> (kv :: d))
     +:+ newline_indent level +:+ String "}" rest)
  ≫= scan_members fuel
  = Some (kv :: d, rest).
Proof.
  revert kv fuel. induction d as [|kv' d IH]; intros [k v] fuel HP Hwf Hfuel.
  - apply Forall_cons_1 in HP as [Hv _]. cbn [snd] in Hv.
    simpl in Hwf. rewrite andb_true_r in Hwf.
    destruct fuel as [|fuel]; [simpl in Hfuel; lia|].
    rewrite fmap_cons, fmap_nil. cbn [str_join].
    rewrite member_text_app.
    rewrite expect_cons. change (Ascii.eqb dquote dquote) with true.
    cbv beta iota. rewrite bind_some, scan_members_eq, scanstring_escape.
    rewrite bind_some. cbv beta iota.
    change (skip_ws (String ":" ?r)) with (String ":" r).
    rewrite expect_cons. change (Ascii.eqb ":" ":") with true.
    cbv beta iota. rewrite bind_some.
    change (skip_ws (String " " ?r)) with (skip_ws r).
    rewrite skip_ws_value
      by apply starts_value_app, iterencode_starts_value.
    rewrite Hv; [|done|simpl in Hfuel; lia|apply number_end_newline_indent].
    rewrite bind_some. cbv beta iota.
    rewrite skip_ws_newline_indent. reflexivity.
  - apply Forall_cons_1 in HP as [Hv HP]. cbn [snd] in Hv.
    simpl in Hwf. apply andb_true_iff in Hwf as [Hwv Hwf].
    destruct fuel as [|fuel]; [simpl in Hfuel; lia|].
    rewrite !fmap_cons, str_join_cons, <- !fmap_cons, !str_app_assoc.
    rewrite member_text_app.
    rewrite expect_cons. change (Ascii.eqb dquote dquote) with true.
    cbv beta iota. rewrite bind_some, scan_members_eq, scanstring_escape.
    rewrite bind_some. cbv beta iota.
    change (skip_ws (String ":" ?r)) with (String ":" r).
    rewrite expect_cons. change (Ascii.eqb ":" ":") with true.
    cbv beta iota. rewrite bind_some.
    change (skip_ws (String " " ?r)) with (skip_ws r).
    rewrite skip_ws_value
      by apply starts_value_app, iterencode_starts_value.
    rewrite Hv; [|done|simpl in Hfuel |- *; lia|apply number_end_comma].
    rewrite bind_some. cbv beta iota.
    change ("," +:+ ?r) with (String "," r).
    change (skip_ws (String "," ?r)) with (String "," r).
    cbv beta iota.
    change (Ascii.eqb "," "}") with false.
    change (Ascii.eqb "," ",") with true. cbv beta iota.
    rewrite skip_ws_newline_indent.
    assert (Hstart : ∀ x, skip_ws
      (str_join ("," +:+ newline_indent (S level))
         (member_text (S level) <$> kv' :: d) +:+ x)
      = str_join ("," +:+ newline_indent (S level))
         (member_text (S level) <$> kv' :: d) +:+ x).
    { intros x. apply skip_ws_value, starts_value_app.
      rewrite fmap_cons. apply str_join_starts_value.
      by eexists _, _. }
    rewrite Hstart.
    assert (Hle : members_weight (kv' :: d) ≤ fuel)
      by (simpl in Hfuel |- *; lia).
    specialize (IH kv' fuel HP Hwf Hle).
    destruct (expect dquote _) as [r|]; [|discriminate].
    rewrite bind_some in IH |- *. by rewrite IH.
Qed.

(** ** Dictionaries *)

Lemma existsb_eqb_elem (k : string) (l : list string) :
  existsb (String.eqb k) l = true ↔ k ∈ l.
Proof.
  rewrite existsb_exists. split.
  - intros (x & Hx & ->%String.eqb_eq). by apply list_elem_of_In.
  - intros Hk. exists k. split; [by apply list_elem_of_In|apply String.eqb_refl].
Qed.

Lemma distinct_NoDup (l : list string) : distinct l = true ↔ NoDup l.
Proof.
  induction l as [|k l IH]; simpl.
  - split; [constructor|done].
  - rewrite andb_true_iff, negb_true_iff, NoDup_cons, IH.
    rewrite <- not_true_iff_false, existsb_eqb_elem. done.
Qed.

Lemma dict_set_fresh k v (d : dict) :
  k ∉ d.*1 → dict_set k v d = d ++ [(k, v)].
Proof.
  induction d as [|[k' v'] d IH]; simpl; [done|].
  intros Hk. apply not_elem_of_cons in Hk as [Hne Hk].
  destruct (String.eqb_spec k' k) as [->|_]; [done|]. by rewrite IH.
Qed.

Lemma fold_dict_set_distinct (l acc : dict) :
  NoDup (acc ++ l).*1 →
  fold_left (fun d kv => dict_set kv.1 kv.2 d) l acc = acc ++ l.
Proof.
  revert acc. induction l as [|[k v] l IH]; intros acc Hnd; simpl.
  - by rewrite app_nil_r.
  - rewrite dict_set_fresh.
    + rewrite IH; rewrite <- app_assoc; done.
    + rewrite fmap_app, fmap_cons in Hnd. apply NoDup_app in Hnd as (_ & Hd & _).
      intros Hin. apply (Hd k Hin). simpl. left.
Qed.

Lemma dict_of_pairs_distinct (d : dict) :
  distinct d.*1 = true → dict_of_pairs d = d.
Proof.
  intros Hd%distinct_NoDup. unfold dict_of_pairs.
  by rewrite fold_dict_set_distinct.
Qed.

(** ** Reading back what was written *)

Lemma expect_close_value s : starts_value s → expect "]" s = None.
Proof. intros (c & r & -> & _ & Hc). by rewrite expect_cons, Hc. Qed.

Lemma iterencode_arr level x l :
  iterencode level (JArr (x :: l))
  = String "[" (newline_indent (S level) +:+
      str_join ("," +:+ newline_indent (S level))
               (iterencode (S level) <$> (x :: l)) +:+
      newline_indent level +:+ "]").
Proof. reflexivity. Qed.

Lemma iterencode_obj level kv d :
  iterencode level (JObj (kv :: d))
  = String "{" (newline_indent (S level) +:+
      str_join ("," +:+ newline_indent (S level))
               (member_text (S level) <$> (kv :: d)) +:+
      newline_indent level +:+ "}").
Proof. reflexivity. Qed.

Theorem iterencode_reads_back v : reads_back v.
Proof.
  induction v as [|b|z|s|l IH|d IH] using json_ind_nested;
    intros Hwf level fuel rest Hfuel Hrest;
    (destruct fuel as [|fuel]; [simpl in Hfuel; lia|]).
  - reflexivity.
  - by destruct b.
  - destruct (int_repr_start z) as (c & r & Hr & Hc).
    change (iterencode level (JInt z)) with (int_repr z).
    rewrite Hr, app_cons, scan_once_number by done.
    rewrite <- app_cons, <- Hr. by apply scan_number_int.
  - change (iterencode level (JStr s)) with (encode_basestring s).
    by rewrite scanstring_basestring, scan_once_str, scanstring_escape.
  - destruct l as [|x l]; [reflexivity|].
    rewrite iterencode_arr, app_cons, scan_once_arr, !str_app_assoc.
    change ("]" +:+ rest) with (String "]" rest).
    rewrite skip_ws_newline_indent.
    assert (Hstart : starts_value
      (str_join ("," +:+ newline_indent (S level))
         (iterencode (S level) <$> x :: l)
       +:+ newline_indent level +:+ String "]" rest)).
    { apply starts_value_app. rewrite fmap_cons.
      apply str_join_starts_value, iterencode_starts_value. }
    rewrite (skip_ws_value _ Hstart), (expect_close_value _ Hstart).
    rewrite scan_items_join; [done|done|done|].
    simpl in Hfuel. unfold items_weight. simpl. lia.
  - destruct d as [|kv d]; [reflexivity|].
    change (wf_json (JObj (kv :: d)))
      with (distinct (kv :: d).*1
            && forallb (fun kv => wf_json kv.2) (kv :: d)) in Hwf.
    apply andb_true_iff in Hwf as [Hkeys Hwf].
    rewrite iterencode_obj, app_cons, scan_once_obj, !str_app_assoc.
    change ("}" +:+ rest) with (String "}" rest).
    rewrite skip_ws_newline_indent.
    assert (Hstart : ∃ r,
      str_join ("," +:+ newline_indent (S level))
         (member_text (S level) <$> kv :: d)
       +:+ newline_indent level +:+ String "}" rest = String dquote r).
    { rewrite fmap_cons. destruct d; [|rewrite !fmap_cons, str_join_cons];
        destruct kv; cbn [str_join]; rewrite ?str_app_assoc, member_text_app;
        by eexists. }
    assert (Hle : members_weight (kv :: d) ≤ fuel)
      by (simpl in Hfuel; unfold members_weight; simpl; lia).
    pose proof (scan_members_join level d kv fuel rest IH Hwf Hle) as Hm.
    destruct Hstart as [r Hr]. rewrite Hr in Hm |- *.
    change (skip_ws (String dquote r)) with (String dquote r).
    change (expect "}" (String dquote r)) with (@None string).
    cbv beta iota.
    change (expect dquote (String dquote r)) with (Some r) in Hm |- *.
    change (scan_members fuel r = Some (kv :: d, rest)) in Hm.
    rewrite bind_some, Hm, bind_some. cbv beta iota.
    by rewrite dict_of_pairs_distinct.
Qed.

(** ** The fuel of [loads] suffices *)

Lemma str_join_length_weight sep (f : json → string) l :
  1 ≤ String.length sep →
  Forall (fun x => weight x ≤ String.length (f x)) l →
  items_weight l ≤ S (String.length (str_join sep (f <$> l))).
Proof.
  intros Hsep. induction 1 as [|x l Hx Hl IH]; [simpl; lia|].
  destruct l as [|y l]; [simpl; lia|].
  rewrite !fmap_cons, str_join_cons, !length_app.
  rewrite fmap_cons in IH.
  change (items_weight (x :: y :: l)) with (S (weight x + items_weight (y :: l))).
  lia.
Qed.

Lemma members_length_weight sep (f : string * json → string) (d : dict) :
  1 ≤ String.length sep →
  Forall (fun kv => weight kv.2 ≤ String.length (f kv)) d →
  members_weight d ≤ S (String.length (str_join sep (f <$> d))).
Proof.
  intros Hsep. induction 1 as [|x l Hx Hl IH]; [simpl; lia|].
  destruct l as [|y l]; [simpl; lia|].
  rewrite !fmap_cons, str_join_cons, !length_app.
  rewrite fmap_cons in IH.
  change (members_weight (x :: y :: l))
    with (S (weight x.2 + members_weight (y :: l))).
  lia.
Qed.

Lemma weight_le_length v : ∀ level, weight v ≤ String.length (iterencode level v).
Proof.
  induction v as [|b|z|s|l IH|d IH] using json_ind_nested; intros level.
  - simpl. lia.
  - destruct b; simpl; lia.
  - destruct (int_repr_start z) as (c & r & Hr & _).
    change (iterencode level (JInt z)) with (int_repr z). rewrite Hr. simpl. lia.
  - simpl. lia.
  - destruct l as [|x l]; [simpl; lia|].
    rewrite iterencode_arr.
    change (weight (JArr (x :: l))) with (S (items_weight (x :: l))).
    cbn [String.length]. rewrite !length_app.
    pose proof (str_join_length_weight ("," +:+ newline_indent (S level))
                  (iterencode (S level)) (x :: l)) as H.
    unfold newline_indent in *. cbn [String.length] in *.
    rewrite length_app in H. cbn [String.length] in H.
    assert (Hl : Forall (fun x => weight x ≤ String.length (iterencode (S level) x)) (x :: l)).
    { eapply Forall_impl; [exact IH|]. intros y Hy. apply Hy. }
    specialize (H ltac:(lia) Hl). lia.
  - destruct d as [|kv d]; [simpl; lia|].
    rewrite iterencode_obj.
    change (weight (JObj (kv :: d))) with (S (members_weight (kv :: d))).
    cbn [String.length]. rewrite !length_app.
    pose proof (members_length_weight ("," +:+ newline_indent (S level))
                  (member_text (S level)) (kv :: d)) as H.
    unfold newline_indent in *. cbn [String.length] in *.
    rewrite length_app in H. cbn [String.length] in H.
    assert (Hl : Forall (fun kv => weight kv.2 ≤ String.length (member_text (S level) kv)) (kv :: d)).
    { eapply Forall_impl; [exact IH|]. intros y Hy. cbv beta in Hy.
      unfold member_text. rewrite !length_app. specialize (Hy (S level)). lia. }
    specialize (H ltac:(lia) Hl). lia.
Qed.

(** Whatever [dumps] writes for a well-formed value, [loads] reads the
    value back. *)
Theorem loads_dumps v : wf_json v = true → loads (dumps v) = Some v.
Proof.
  intros Hwf. unfold loads, dumps.
  rewrite skip_ws_value by apply iterencode_starts_value.
  rewrite <- (app_empty_r (iterencode 0 v)) at 2.
  rewrite iterencode_reads_back;
    [done|done|pose proof (weight_le_length v 0); lia|apply number_end_empty].
Qed.

(** ** What [loads] returns is well formed *)

Lemma dict_set_keys k v (d : dict) :
  (dict_set k v d).*1 = if decide (k ∈ d.*1) then d.*1 else d.*1 ++ [k].
Proof.
  induction d as [|[k' v'] d IH].
  - destruct (decide (k ∈ ([] : dict).*1)) as [H|H]; [by apply elem_of_nil in H|done].
  - rewrite fmap_cons. cbn [dict_set fst].
    destruct (String.eqb_spec k' k) as [->|Hne].
    + rewrite decide_True by left. done.
    + rewrite fmap_cons, IH. cbn [fst].
      destruct (decide (k ∈ d.*1)) as [H|H].
      * rewrite decide_True by (by right). done.
      * rewrite decide_False; [done|].
        intros [?|?]%elem_of_cons; congruence.
Qed.

Lemma dict_set_NoDup k v (d : dict) : NoDup d.*1 → NoDup (dict_set k v d).*1.
Proof.
  intros Hd. rewrite dict_set_keys. case_decide; [done|].
  apply NoDup_app. split_and!; [done| |apply NoDup_singleton].
  by intros x Hx ->%list_elem_of_singleton.
Qed.

Lemma dict_set_Forall (P : json → Prop) k v (d : dict) :
  P v → Forall (fun kv => P kv.2) d →
  Forall (fun kv => P kv.2) (dict_set k v d).
Proof.
  intros Hv. induction 1 as [|[k' v'] d Hx Hd IH]; simpl.
  - by constructor.
  - destruct (String.eqb k' k); constructor; done.
Qed.

Lemma forallb_Forall_true {A} (f : A → bool) l :
  forallb f l = true ↔ Forall (fun x => f x = true) l.
Proof.
  induction l as [|x l IH]; simpl; [by split|].
  by rewrite andb_true_iff, Forall_cons, IH.
Qed.

Lemma dict_of_pairs_wf (pairs : dict) :
  forallb (fun kv => wf_json kv.2) pairs = true →
  wf_json (JObj (dict_of_pairs pairs)) = true.
Proof.
  intros Hp. apply forallb_Forall_true in Hp.
  assert (Hinv : ∀ acc : dict,
    NoDup acc.*1 → Forall (fun kv => wf_json kv.2 = true) acc →
    let d := fold_left (fun d kv => dict_set kv.1 kv.2 d) pairs acc in
    NoDup d.*1 ∧ Forall (fun kv => wf_json kv.2 = true) d).
  { induction Hp as [|[k v] l Hv Hl IH]; intros acc Hnd Hacc; simpl; [done|].
    apply IH; [by apply dict_set_NoDup|].
    by apply (dict_set_Forall (fun v => wf_json v = true)). }
  destruct (Hinv [] (NoDup_nil_2) (Forall_nil_2 _)) as [Hnd Hall].
  change (distinct (dict_of_pairs pairs).*1
          && forallb (fun kv => wf_json kv.2) (dict_of_pairs pairs) = true).
  apply andb_true_iff. split; [by apply distinct_NoDup|].
  by apply forallb_Forall_true.
Qed.

Lemma scan_number_int_only s v r : scan_number s = Some (v, r) → ∃ z, v = JInt z.
Proof.
  unfold scan_number.
  destruct (match s with String "-" r => (true, r) | _ => (false, s) end)
    as [neg s1].
  destruct (match s1 with
            | "" => None
            | String "0" r => Some (D0 Nil, r)
            | String c _ => if is_digit c then Some (span_digits s1) else None
            end) as [[d rest]|]; [|done].
  destruct (continues_as_float rest); [done|].
  intros [= <- _]. eauto.
Qed.

Lemma scan_once_eq fuel c r :
  scan_once (S fuel) (String c r)
  = if Ascii.eqb c dquote then
      '(x, rest) ← scanstring r; Some (JStr x, rest)
    else if Ascii.eqb c "{" then
      match expect "}" (skip_ws r) with
      | Some rest => Some (JObj [], rest)
      | None =>
          r ← expect dquote (skip_ws r);
          '(pairs, rest) ← scan_members fuel r;
          Some (JObj (dict_of_pairs pairs), rest)
      end
    else if Ascii.eqb c "[" then
      match expect "]" (skip_ws r) with
      | Some rest => Some (JArr [], rest)
      | None => '(l, rest) ← scan_items fuel (skip_ws r); Some (JArr l, rest)
      end
    else if str_prefix "null" (String c r) then
      Some (JNull, str_drop 4 (String c r))
    else if str_prefix "true" (String c r) then
      Some (JBool true, str_drop 4 (String c r))
    else if str_prefix "false" (String c r) then
      Some (JBool false, str_drop 5 (String c r))
    else scan_number (String c r).
Proof. reflexivity. Qed.

Lemma scan_wf fuel :
  (∀ s v r, scan_once fuel s = Some (v, r) → wf_json v = true) ∧
  (∀ s l r, scan_items fuel s = Some (l, r) → forallb wf_json l = true) ∧
  (∀ s d r, scan_members fuel s = Some (d, r) →
            forallb (fun kv => wf_json kv.2) d = true).
Proof.
  induction fuel as [|fuel (IHv & IHl & IHd)]; [done|]. split_and!.
  - intros [|c s] v r; [done|]. rewrite scan_once_eq.
    destruct (Ascii.eqb c dquote).
    { destruct (scanstring s) as [[x rest]|]; [|done]. by intros [= <- _]. }
    destruct (Ascii.eqb c "{").
    { destruct (expect "}" (skip_ws s)); [by intros [= <- _]|].
      destruct (expect dquote (skip_ws s)) as [r1|]; [|done].
      rewrite bind_some.
      destruct (scan_members fuel r1) as [[pairs rest]|] eqn:Hm; [|done].
      intros [= <- _]. apply dict_of_pairs_wf. by eapply IHd. }
    destruct (Ascii.eqb c "[").
    { destruct (expect "]" (skip_ws s)); [by intros [= <- _]|].
      destruct (scan_items fuel (skip_ws s)) as [[l rest]|] eqn:Hl; [|done].
      intros [= <- _]. by eapply IHl. }
    destruct (str_prefix "null" _); [by intros [= <- _]|].
    destruct (str_prefix "true" _); [by intros [= <- _]|].
    destruct (str_prefix "false" _); [by intros [= <- _]|].
    by intros [z ->]%scan_number_int_only.
  - intros s l r. rewrite scan_items_eq.
    destruct (scan_once fuel s) as [[v r1]|] eqn:Hv; [|done].
    rewrite bind_some. cbv beta iota.
    destruct (skip_ws r1) as [|c r2]; [done|].
    destruct (Ascii.eqb c "]").
    { intros [= <- _]. simpl. rewrite andb_true_r. by eapply IHv. }
    destruct (Ascii.eqb c ","); [|done].
    destruct (scan_items fuel (skip_ws r2)) as [[l' rest]|] eqn:Hl; [|done].
    intros [= <- _]. simpl. apply andb_true_iff. split; [by eapply IHv|by eapply IHl].
  - intros s d r. rewrite scan_members_eq.
    destruct (scanstring s) as [[k r1]|]; [|done].
    rewrite bind_some. cbv beta iota.
    destruct (expect ":" (skip_ws r1)) as [r2|]; [|done].
    rewrite bind_some.
    destruct (scan_once fuel (skip_ws r2)) as [[v r3]|] eqn:Hv; [|done].
    rewrite bind_some. cbv beta iota.
    destruct (skip_ws r3) as [|c r4]; [done|].
    destruct (Ascii.eqb c "}").
    { intros [= <- _]. simpl. rewrite andb_true_r. by eapply IHv. }
    destruct (Ascii.eqb c ","); [|done].
    destruct (expect dquote (skip_ws r4)) as [r5|]; [|done].
    rewrite bind_some.
    destruct (scan_members fuel r5) as [[d' rest]|] eqn:Hd; [|done].
    intros [= <- _]. simpl. apply andb_true_iff. split; [by eapply IHv|by eapply IHd].
Qed.

Theorem loads_wf s v : loads s = Some v → wf_json v = true.
Proof.
  unfold loads.
  destruct (scan_once _ _) as [[v' rest]|] eqn:Hv; [|done].
  rewrite bind_some. cbv beta iota.
  destruct (skip_ws rest); [|done]. intros [= <-].
  by eapply (proj1 (scan_wf _)).
Qed.

(** * The text store *)

Section TextStore.
Context (app_dir : path).

Lemma node_at_text_file (fs : filesystem) :
  node_at fs (TEXT_FILE app_dir) = fs !! TEXT_FILE app_dir.
Proof. unfold TEXT_FILE. by destruct app_dir. Qed.

Lemma load_texts_missing (fs : filesystem) :
  fs !! TEXT_FILE app_dir = None → load_texts app_dir fs = Return (JArr []).
Proof.
  intros Hnone. unfold load_texts. rewrite node_at_text_file, Hnone.
  by rewrite bool_decide_eq_false_2 by (intros [? ?]; discriminate).
Qed.

Lemma load_texts_file (fs : filesystem) (s : string) :
  fs !! TEXT_FILE app_dir = Some (File s) →
  load_texts app_dir fs
  = match loads s with
    | Some v => Return v
    | None => Raise JSONDecodeError
    end.
Proof.
  intros Hfile. unfold load_texts, read_text.
  rewrite node_at_text_file, Hfile.
  by rewrite bool_decide_eq_true_2 by eauto.
Qed.

Lemma load_texts_inv (fs : filesystem) (v : json) :
  load_texts app_dir fs = Return v →
  wf_json v = true ∧ fs !! TEXT_FILE app_dir ≠ Some Dir.
Proof.
  destruct (fs !! TEXT_FILE app_dir) as [[s|]|] eqn:Hnode.
  - rewrite (load_texts_file _ _ Hnode).
    destruct (loads s) as [v'|] eqn:Hs; [|done].
    intros [= <-]. split; [by eapply loads_wf|done].
  - unfold load_texts, read_text. rewrite node_at_text_file, Hnode.
    by rewrite bool_decide_eq_true_2 by eauto.
  - rewrite (load_texts_missing _ Hnode). by intros [= <-].
Qed.

Lemma save_texts_written (fs : filesystem) (v : json) :
  fs !! TEXT_FILE app_dir ≠ Some Dir →
  save_texts app_dir v fs
  = Return (<[TEXT_FILE app_dir := File (dumps v)]> fs).
Proof.
  intros Hnd. unfold save_texts, write_text. rewrite node_at_text_file.
  by destruct (fs !! TEXT_FILE app_dir) as [[|]|].
Qed.

Lemma load_texts_saved (fs : filesystem) (v : json) :
  wf_json v = true →
  load_texts app_dir (<[TEXT_FILE app_dir := File (dumps v)]> fs) = Return v.
Proof.
  intros Hwf.
  rewrite (load_texts_file _ (dumps v)) by apply lookup_insert_eq.
  by rewrite loads_dumps.
Qed.

Lemma new_text_wf u content now : wf_json (new_text u content now) = true.
Proof. reflexivity. Qed.

(** One successful [POST /text]. *)
Lemma add_text_stored (data : json) (content : string) (u : N) (now : string)
    (fs : filesystem) (l : list json) :
  load_texts app_dir fs = Return (JArr l) →
  content_field data = Some (JStr content) →
  strip content ≠ "" →
  let texts := JArr (new_text u (strip content) now :: l) in
  let fs' := <[TEXT_FILE app_dir := File (dumps texts)]> fs in
  add_text app_dir data u now fs = (Return success, fs') ∧
  load_texts app_dir fs' = Return texts.
Proof.
  intros Hload Hdata Hstrip texts fs'.
  destruct (load_texts_inv _ _ Hload) as [Hwf Hnd].
  split.
  - destruct data as [| | | | |d]; try discriminate. simpl in Hdata.
    unfold add_text. rewrite (truthy_nonempty_dict _ _ _ Hdata).
    cbn [negb]. unfold py_in, py_getitem. rewrite Hdata.
    rewrite bool_decide_eq_true_2 by eauto.
    cbn [obind negb py_strip].
    apply String.eqb_neq in Hstrip. rewrite Hstrip, Hload.
    cbn [obind py_insert0].
    by rewrite save_texts_written.
  - apply load_texts_saved.
    change (wf_json texts) with
      (wf_json (new_text u (strip content) now) && forallb wf_json l).
    by rewrite new_text_wf.
Qed.


(** ** [DELETE /text/<text_id>] *)

Lemma keep_other_ids_all text_id l :
  Forall (fun t => ∃ i, py_getitem t "id" = Return i
                        ∧ py_ne_str i text_id = true) l →
  keep_other_ids text_id l = Return l.
Proof.
  induction 1 as [|t l (i & Hi & Hne) Hl IH]; [done|].
  cbn [keep_other_ids]. rewrite Hi. cbn [obind]. rewrite IH. cbn [obind].
  by rewrite Hne.
Qed.

(** C9: removing an id that no snippet has answers success, and the
    list read back afterwards is the list read before. *)
Theorem delete_text_unknown_id (text_id : string) (fs : filesystem)
    (l : list json) :
  load_texts app_dir fs = Return (JArr l) →
  Forall (fun t => ∃ i, py_getitem t "id" = Return i
                        ∧ py_ne_str i text_id = true) l →
  ∃ fs', delete_text app_dir text_id fs = (Return success, fs') ∧
         load_texts app_dir fs' = Return (JArr l).
Proof.
  intros Hload Hids.
  destruct (load_texts_inv _ _ Hload) as [Hwf Hnd].
  exists (<[TEXT_FILE app_dir := File (dumps (JArr l))]> fs). split.
  - unfold delete_text. rewrite Hload. cbn [obind py_filter_ids].
    rewrite (keep_other_ids_all _ _ Hids). cbn [obind].
    by rewrite save_texts_written.
  - by apply load_texts_saved.
Qed.

(** ** Reading and writing back *)

(** C8: when the file holds what [save_texts] wrote for a value, reading
    the list and saving it again leaves the file system, and so the
    bytes of the file, as they were. *)
Theorem save_load_stable (fs : filesystem) (v : json) :
  wf_json v = true →
  fs !! TEXT_FILE app_dir = Some (File (dumps v)) →
  save_load_cycle app_dir fs = Return fs.
Proof.
  intros Hwf Hfile. unfold save_load_cycle.
  rewrite (load_texts_file _ _ Hfile), loads_dumps by done.
  cbn [obind]. rewrite save_texts_written by congruence.
  by rewrite insert_id.
Qed.

(** X2: from any state that can be read, also one written by hand, one
    cycle [save_texts(load_texts())] reaches a state that further
    cycles do not change. *)
Lemma save_load_idempotent (fs fs1 : filesystem) :
  save_load_cycle app_dir fs = Return fs1 →
  save_load_cycle app_dir fs1 = Return fs1.
Proof.
  unfold save_load_cycle at 1.
  destruct (load_texts app_dir fs) as [v|] eqn:Hload; [|done].
  destruct (load_texts_inv _ _ Hload) as [Hwf Hnd].
  cbn [obind]. rewrite save_texts_written by done. intros [= <-].
  unfold save_load_cycle. rewrite load_texts_saved by done.
  cbn [obind]. rewrite save_texts_written
    by (rewrite lookup_insert_eq; congruence).
  by rewrite insert_insert_eq.
Qed.

(** X3: when [texts.json] is missing, [load_texts] returns the empty
    list, and the cycle [save_texts(load_texts())] creates the file
    with the text [[]]. *)
Lemma save_load_missing (fs : filesystem) :
  fs !! TEXT_FILE app_dir = None →
  save_load_cycle app_dir fs
  = Return (<[TEXT_FILE app_dir := File "[]"]> fs).
Proof.
  intros Hnone. unfold save_load_cycle.
  rewrite (load_texts_missing _ Hnone). cbn [obind].
  rewrite save_texts_written by congruence. done.
Qed.

End TextStore.

(** * Snippet ids *)






Section SnippetIds.
Context (app_dir : path).


End SnippetIds.

(** * Uploads: names that collide *)

(** ** Names *)

Lemma str_take_drop n s : str_take n s +:+ str_drop n s = s.
Proof.
  revert s. induction n as [|n IH]; intros [|c s]; try done.
  cbn [str_take str_drop]. by rewrite app_cons, IH.
Qed.

Lemma has_char_app c a b : has_char c (a +:+ b) = has_char c a || has_char c b.
Proof.
  induction a as [|x a IH]; [done|].
  rewrite app_cons. cbn [has_char]. by rewrite IH, orb_assoc.
Qed.

Lemma has_char_drop c n s :
  has_char c s = false → has_char c (str_drop n s) = false.
Proof.
  revert s. induction n as [|n IH]; intros [|x s]; try done.
  cbn [has_char str_drop]. intros [_ Hs]%orb_false_iff. by apply IH.
Qed.

Lemma has_char_drop_le c n m s :
  n ≤ m → has_char c (str_drop n s) = false →
  has_char c (str_drop m s) = false.
Proof.
  revert m s. induction n as [|n IH]; intros m s Hle.
  - destruct s; apply has_char_drop.
  - destruct m as [|m]; [lia|]. destruct s as [|x s]; [done|].
    cbn [str_drop]. apply IH. lia.
Qed.

Lemma rfind_none c s : rfind c s = None → has_char c s = false.
Proof.
  induction s as [|x s IH]; [done|]. cbn [rfind has_char].
  destruct (rfind c s); [done|]. destruct (Ascii.eqb x c); [done|].
  intros _. by apply IH.
Qed.

Lemma rfind_some c s i :
  rfind c s = Some i → has_char c (str_drop (S i) s) = false.
Proof.
  revert i. induction s as [|x s IH]; intros i; [done|]. cbn [rfind].
  destruct (rfind c s) as [j|] eqn:Hj.
  - intros [= <-]. cbn [str_drop]. by apply IH.
  - destruct (Ascii.eqb x c); [|done]. intros [= <-].
    cbn [str_drop]. destruct s; by apply rfind_none.
Qed.

Lemma splitext_app p : (splitext p).1 +:+ (splitext p).2 = p.
Proof.
  unfold splitext. destruct (rfind "." p) as [d|]; [|apply app_empty_r].
  destruct (_ && _); [apply str_take_drop|apply app_empty_r].
Qed.

Lemma splitext_ext_no_slash p : has_char "/" (splitext p).2 = false.
Proof.
  unfold splitext. destruct (rfind "." p) as [d|]; [|done].
  destruct (rfind "/" p) as [s|] eqn:Hs.
  - destruct (S s <=? d) eqn:Hle; [|done].
    destruct (has_non_dot _); [|done]. cbn [andb snd].
    apply Nat.leb_le in Hle.
    eapply has_char_drop_le; [exact Hle|]. by apply rfind_some.
  - destruct (_ && _); [|done]. cbn [snd].
    apply has_char_drop. by apply rfind_none.
Qed.

Lemma uint_text_no_slash d : has_char "/" (NilEmpty.string_of_uint d) = false.
Proof. induction d; simpl; done. Qed.

Lemma dec_no_slash k : has_char "/" (dec k) = false.
Proof.
  unfold dec, NilZero.string_of_uint.
  destruct (N.to_uint _) eqn:E; [done|..]; rewrite <- E; apply uint_text_no_slash.
Qed.

Lemma dec_inj j k : dec j = dec k → j = k.
Proof.
  unfold dec. intros H.
  assert (Hu : ∀ n, N.to_uint n ≠ Nil).
  { intros [|p]; [done|apply DecimalPos.Unsigned.to_uint_nonnil]. }
  apply (f_equal NilZero.uint_of_string) in H.
  rewrite !NilZero.usu in H by apply Hu.
  injection H as H. apply DecimalN.Unsigned.to_uint_inj in H. lia.
Qed.

Lemma app_inj_r a b c : a +:+ c = b +:+ c → a = b.
Proof.
  intros H. assert (Hlen : String.length a = String.length b).
  { apply (f_equal String.length) in H. rewrite !length_app in H. lia. }
  revert b H Hlen. induction a as [|x a IH]; intros [|y b] H Hlen; try done.
  rewrite !app_cons in H. injection H as -> H.
  f_equal. apply IH; [done|]. simpl in Hlen. lia.
Qed.

(** ** Components of a name *)

Lemma split_slash_app s t :
  has_char "/" t = false →
  split_slash (s +:+ t)
  = removelast (split_slash s) ++ [List.last (split_slash s) "" +:+ t].
Proof.
  intros Ht. induction s as [|c s IH].
  - change ("" +:+ t) with t. by rewrite (split_slash_no_slash _ Ht).
  - rewrite app_cons. cbn [split_slash]. rewrite IH.
    pose proof (split_slash_nonempty s) as Hne.
    destruct (split_slash s) as [|w ws]; [done|].
    destruct (Ascii.eqb c "/").
    + destruct ws; reflexivity.
    + destruct ws as [|w' ws]; [reflexivity|].
      cbn [removelast app]. reflexivity.
Qed.

Lemma walk_app (fs : filesystem) cur l1 l2 :
  walk fs cur (l1 ++ l2) = walk fs cur l1 ≫= fun d => walk fs d l2.
Proof.
  revert cur. induction l1 as [|c l1 IH]; intros cur; [done|].
  cbn [walk app]. destruct (is_dir fs cur); [|done].
  destruct (_ || _); [apply IH|]. destruct (String.eqb c ".."); apply IH.
Qed.

Lemma proper_name_underscore c : has_char "_" c = true → proper_name c = true.
Proof.
  intros Hc. unfold proper_name.
  destruct (String.eqb_spec c "") as [->|_]; [done|].
  destruct (String.eqb_spec c ".") as [->|_]; [done|].
  destruct (String.eqb_spec c "..") as [->|_]; done.
Qed.

Lemma walk_proper (fs : filesystem) cur c :
  proper_name c = true →
  walk fs cur [c] = if is_dir fs cur then Some (cur ++ [c]) else None.
Proof.
  unfold proper_name. intros H%negb_true_iff.
  apply orb_false_iff in H as [H1 H2]. cbn [walk].
  by rewrite H1, H2.
Qed.

Lemma walk_last_dir (fs : filesystem) cur c q :
  walk fs cur [c] = Some q → is_dir fs cur = true.
Proof. cbn [walk]. by destruct (is_dir fs cur). Qed.

(** ** The names that the loop tries *)

Section Candidates.
Context (app_dir : path) (fs : filesystem) (base ext : string).
Hypothesis ext_no_slash : has_char "/" ext = false.

Let upload : path := UPLOAD_FOLDER app_dir.
Let cand (k : nat) : string := base +:+ "_" +:+ dec k +:+ ext.
Let dirs : list string := removelast (split_slash base).
Let leaf (k : nat) : string :=
  List.last (split_slash base) "" +:+ String "_" (dec k +:+ ext).
Let start : path := if is_abs (base +:+ "_") then [] else upload.

Lemma is_abs_cand x : is_abs (base +:+ String "_" x) = is_abs (base +:+ "_").
Proof. by destruct base. Qed.

Lemma is_abs_original : is_abs (base +:+ ext) = is_abs (base +:+ "_").
Proof.
  destruct base; [|done]. change ("" +:+ ext) with ext.
  destruct ext as [|c e]; [done|]. cbn [has_char] in ext_no_slash.
  apply orb_false_iff in ext_no_slash as [Hc _].
  unfold is_abs. cbn [str_prefix]. by rewrite Ascii.eqb_sym, Hc.
Qed.

Lemma leaf_proper k : proper_name (leaf k) = true.
Proof.
  apply proper_name_underscore. unfold leaf.
  rewrite has_char_app. cbn [has_char]. by rewrite orb_true_r.
Qed.

Lemma leaf_inj j k : leaf j = leaf k → j = k.
Proof.
  unfold leaf. intros H%String.app_inj. injection H as H.
  by apply app_inj_r, dec_inj in H.
Qed.

Lemma split_slash_cand k : split_slash (cand k) = dirs ++ [leaf k].
Proof.
  unfold cand. change ("_" +:+ ?x) with (String "_" x).
  apply split_slash_app. cbn [has_char].
  by rewrite has_char_app, dec_no_slash, ext_no_slash.
Qed.

Lemma resolve_cand k :
  resolve fs upload (cand k)
  = walk fs start dirs ≫= fun d =>
      if is_dir fs d then Some (d ++ [leaf k]) else None.
Proof.
  unfold resolve. rewrite split_slash_cand, walk_app.
  unfold cand. change ("_" +:+ ?x) with (String "_" x). rewrite is_abs_cand.
  fold start. destruct (walk fs start dirs) as [d|]; [|done].
  rewrite !bind_some. by apply walk_proper, leaf_proper.
Qed.

Lemma node_at_snoc (d : path) (c : string) : node_at fs (d ++ [c]) = fs !! (d ++ [c]).
Proof. unfold node_at. by destruct d. Qed.

Lemma exists_cand_inv k :
  os_path_exists fs upload (cand k) = true →
  ∃ d, walk fs start dirs = Some d ∧ is_Some (fs !! (d ++ [leaf k])).
Proof.
  unfold os_path_exists, lookup_name. rewrite resolve_cand.
  intros H%bool_decide_eq_true.
  destruct (walk fs start dirs) as [d|]; [|by destruct H].
  rewrite bind_some in H. destruct (is_dir fs d); [|by destruct H].
  rewrite bind_some, node_at_snoc in H. eauto.
Qed.

(** The directory holds no more than [size fs] of the names. *)
Lemma candidates_exhausted n :
  (∀ j, 1 ≤ j ≤ n → os_path_exists fs upload (cand j) = true) →
  n ≤ size fs.
Proof.
  intros Hall. destruct n as [|n]; [lia|].
  destruct (exists_cand_inv 1) as (d & Hd & _); [apply Hall; lia|].
  set (l := (fun j => d ++ [leaf j]) <$> seq 1 (S n)).
  assert (Hnd : NoDup l).
  { apply NoDup_fmap_2; [|apply NoDup_seq].
    intros j k Hjk. apply app_inv_head in Hjk. injection Hjk as Hjk.
    by apply leaf_inj. }
  assert (Hsub : l ⊆+ (map_to_list fs).*1).
  { apply NoDup_submseteq; [done|]. intros q Hq.
    apply list_elem_of_fmap in Hq as (j & -> & Hj).
    apply elem_of_seq in Hj.
    destruct (exists_cand_inv j) as (d' & Hd' & [x Hx]); [apply Hall; lia|].
    rewrite Hd in Hd'. injection Hd' as <-.
    apply list_elem_of_fmap. exists (d ++ [leaf j], x). split; [done|].
    by apply elem_of_map_to_list. }
  apply submseteq_length in Hsub.
  unfold l in Hsub. rewrite !length_fmap, length_seq in Hsub.
  by rewrite length_map_to_list in Hsub.
Qed.

(** The loop from the [c]-th name on. *)
Let loop (fuel c : nat) : option string :=
  next_free app_dir fs base ext fuel (S c) (cand c).

Lemma loop_eq fuel c :
  loop fuel c
  = if os_path_exists fs upload (cand c) then
      match fuel with
      | O => None
      | S fuel => loop fuel (S c)
      end
    else Some (cand c).
Proof. unfold loop. by destruct fuel. Qed.

Lemma loop_some fuel c r :
  loop fuel c = Some r →
  ∃ k, c ≤ k ∧ r = cand k ∧
       os_path_exists fs upload (cand k) = false ∧
       ∀ j, c ≤ j < k → os_path_exists fs upload (cand j) = true.
Proof.
  revert c. induction fuel as [|fuel IH]; intros c; rewrite loop_eq;
    destruct (os_path_exists fs upload (cand c)) eqn:Hc; try done.
  - intros [= <-]. exists c. split_and!; [lia|done|done|lia].
  - intros (k & Hk & -> & Hfree & Hbelow)%IH.
    exists k. split_and!; [lia|done|done|].
    intros j Hj. destruct (decide (j = c)) as [->|]; [done|].
    apply Hbelow. lia.
  - intros [= <-]. exists c. split_and!; [lia|done|done|lia].
Qed.

Lemma loop_none fuel c :
  loop fuel c = None →
  ∀ j, c ≤ j ≤ c + fuel → os_path_exists fs upload (cand j) = true.
Proof.
  revert c. induction fuel as [|fuel IH]; intros c; rewrite loop_eq;
    destruct (os_path_exists fs upload (cand c)) eqn:Hc; try done.
  - intros _ j Hj. by replace j with c by lia.
  - intros Hnone j Hj. destruct (decide (j = c)) as [->|]; [done|].
    apply (IH _ Hnone). lia.
Qed.

(** With [size fs] rounds the loop finds a free name. *)
Lemma loop_finds_free_name :
  ∃ k, 1 ≤ k ∧ loop (size fs) 1 = Some (cand k) ∧
       os_path_exists fs upload (cand k) = false ∧
       ∀ j, 1 ≤ j < k → os_path_exists fs upload (cand j) = true.
Proof.
  destruct (loop (size fs) 1) as [r|] eqn:Hloop.
  - destruct (loop_some _ _ _ Hloop) as (k & Hk & -> & Hfree & Hbelow). eauto.
  - pose proof (loop_none _ _ Hloop) as Hall.
    pose proof (candidates_exhausted (S (size fs))) as Hmax.
    assert (S (size fs) ≤ size fs); [|lia].
    apply Hmax. intros j Hj. apply Hall. lia.
Qed.

Lemma original_dir :
  os_path_exists fs upload (base +:+ ext) = true →
  ∃ d, walk fs start dirs = Some d ∧ is_dir fs d = true.
Proof.
  unfold os_path_exists, lookup_name, resolve.
  rewrite is_abs_original, (split_slash_app _ _ ext_no_slash), walk_app.
  fold start dirs. intros H%bool_decide_eq_true.
  destruct (walk fs start dirs) as [d|]; [|by destruct H].
  rewrite bind_some in H. exists d. split; [done|].
  destruct (walk fs d _) as [q|] eqn:Hq; [|by destruct H].
  by eapply walk_last_dir.
Qed.

(** A name of the loop that does not exist yet can be written, and
    writing it creates a new entry. *)
Lemma free_candidate_saved k data :
  os_path_exists fs upload (base +:+ ext) = true →
  os_path_exists fs upload (cand k) = false →
  ∃ q, resolve fs upload (cand k) = Some q ∧ fs !! q = None ∧
       save_as fs upload (cand k) data = Return (<[q := File data]> fs).
Proof.
  intros (d & Hd & Hdir)%original_dir Hfree.
  assert (Hres : resolve fs upload (cand k) = Some (d ++ [leaf k])).
  { by rewrite resolve_cand, Hd, bind_some, Hdir. }
  assert (Hnone : fs !! (d ++ [leaf k]) = None).
  { unfold os_path_exists, lookup_name in Hfree.
    rewrite Hres, bind_some, node_at_snoc in Hfree.
    apply bool_decide_eq_false in Hfree.
    by apply eq_None_not_Some. }
  exists (d ++ [leaf k]). split_and!; [done|done|].
  unfold save_as. rewrite Hres, node_at_snoc, Hnone, split_slash_cand.
  by rewrite last_last, leaf_proper.
Qed.

End Candidates.

Section Upload.
Context (app_dir : path).

(** X4: the upload handler always answers: the loop
    [while os.path.exists(filepath)] ends, after at most as many rounds
    as the file system has entries, plus one. *)
Theorem upload_file_total (file : option (string * string)) (fs : filesystem) :
  is_Some (upload_file app_dir file fs).
Proof.
  destruct file as [[name data]|]; [|by eexists].
  unfold upload_file. destruct (String.eqb name ""); [by eexists|].
  destruct (splitext name) as [base ext] eqn:Hsp.
  assert (Hext : has_char "/" ext = false).
  { pose proof (splitext_ext_no_slash name) as H. by rewrite Hsp in H. }
  cbn [next_free].
  destruct (os_path_exists fs (UPLOAD_FOLDER app_dir) name).
  - destruct (loop_finds_free_name app_dir fs base ext Hext)
      as (k & _ & -> & _).
    rewrite bind_some. by destruct (save_as _ _ _ _); eexists.
  - rewrite bind_some. by destruct (save_as _ _ _ _); eexists.
Qed.


End Upload.

(** * Downloads stay inside the upload directory *)

Lemma split_slash_components s :
  Forall (fun c => has_char "/" c = false) (split_slash s).
Proof.
  induction s as [|c s IH]; [by constructor|]. cbn [split_slash].
  destruct (Ascii.eqb c "/") eqn:Hc; [by constructor|].
  destruct (split_slash s) as [|w ws]; [by constructor; [simpl; rewrite Hc|]|].
  apply Forall_cons_1 in IH as [Hw Hws]. constructor; [|done].
  cbn [has_char]. by rewrite Hc, Hw.
Qed.

Lemma split_slash_sep w x :
  has_char "/" w = false →
  split_slash (w +:+ String "/" x) = w :: split_slash x.
Proof.
  induction w as [|c w IH]; [done|]. cbn [has_char].
  intros [Hc Hw]%orb_false_iff. rewrite app_cons. cbn [split_slash].
  by rewrite Hc, IH.
Qed.

Lemma split_join_slash names :
  names ≠ [] → Forall (fun c => has_char "/" c = false) names →
  split_slash (join_slash names) = names.
Proof.
  intros Hne Hall. induction Hall as [|w ws Hw Hws IH]; [done|].
  destruct ws as [|w' ws]; [by apply split_slash_no_slash|].
  change (join_slash (w :: w' :: ws))
    with (w +:+ String "/" (join_slash (w' :: ws))).
  rewrite split_slash_sep by done. f_equal. by apply IH.
Qed.

Lemma walk_plain (fs : filesystem) cur names q :
  Forall plain names → walk fs cur names = Some q → q = cur ++ names.
Proof.
  intros Hall. revert cur.
  induction Hall as [|c l [Hc _] Hl IH]; intros cur.
  - cbn [walk]. intros [= <-]. by rewrite app_nil_r.
  - cbn [walk]. destruct (is_dir fs cur); [|done].
    unfold proper_name in Hc. apply negb_true_iff in Hc.
    apply orb_false_iff in Hc as [Hc1 Hc2]. rewrite Hc1, Hc2.
    intros ->%IH. by rewrite <- app_assoc.
Qed.

(** ** The shape of a normalised relative name *)

Lemma last_app_plain n names :
  Forall plain names → names ≠ [] →
  String.eqb (List.last (repeat ".." n ++ names) "") ".." = false.
Proof.
  intros Hall Hne. destruct (exists_last Hne) as (l & c & ->).
  rewrite app_assoc, last_last.
  apply Forall_app in Hall as [_ Hc]. apply Forall_singleton in Hc as [Hc _].
  unfold proper_name in Hc. apply negb_true_iff in Hc.
  by apply orb_false_iff in Hc as [_ Hc].
Qed.

Lemma repeat_snoc (x : string) n : repeat x n ++ [x] = repeat x (S n).
Proof. induction n as [|n IH]; [done|]. simpl. by rewrite IH. Qed.

Lemma normpath_step_normal l c :
  has_char "/" c = false →
  normal_comps l → normal_comps (normpath_step 0 l c).
Proof.
  intros Hc (n & names & -> & Hall). unfold normpath_step.
  destruct (String.eqb c "" || String.eqb c ".") eqn:Hskip;
    [by exists n, names|].
  destruct (String.eqb_spec c "..") as [->|Hne].
  - cbn [negb orb]. rewrite bool_decide_eq_true_2 by done. cbn [andb].
    destruct names as [|x names'] using rev_ind.
    + rewrite app_nil_r. exists (S n), []. split; [|done].
      destruct n as [|n].
      * done.
      * replace (String.eqb (List.last (repeat ".." (S n)) "") "..") with true.
        { rewrite orb_true_r. by rewrite repeat_snoc, app_nil_r. }
        rewrite <- repeat_snoc, last_last. done.
    + clear IHnames'.
      rewrite bool_decide_eq_false_2
        by (rewrite app_assoc; intros H%app_eq_nil; by destruct H).
      rewrite last_app_plain by (done || by destruct names').
      cbn [orb]. exists n, names'. split.
      * by rewrite app_assoc, removelast_last.
      * by apply Forall_app in Hall as [? _].
  - cbn [negb orb]. exists n, (names ++ [c]). split; [by rewrite app_assoc|].
    apply Forall_app. split; [done|]. apply Forall_singleton. split; [|done].
    unfold proper_name. apply orb_false_iff in Hskip as [-> ->].
    apply String.eqb_neq in Hne. by rewrite Hne.
Qed.

Lemma normpath_fold_normal comps l :
  Forall (fun c => has_char "/" c = false) comps →
  normal_comps l → normal_comps (fold_left (normpath_step 0) comps l).
Proof.
  intros Hall. revert l. induction Hall as [|c comps Hc _ IH]; intros l Hl.
  - done.
  - cbn [fold_left]. by apply IH, normpath_step_normal.
Qed.

Lemma join_slash_plain_nonempty names :
  Forall plain names → names ≠ [] → join_slash names ≠ "".
Proof.
  intros Hall Hne. destruct Hall as [|c l [Hc _] _]; [done|].
  destruct c as [|a c]; [done|]. by destruct l.
Qed.

Lemma join_slash_parent n names :
  join_slash (repeat ".." (S n) ++ names) = ".." ∨
  str_prefix "../" (join_slash (repeat ".." (S n) ++ names)) = true.
Proof.
  cbn [repeat app].
  destruct (repeat ".." n ++ names) as [|w ws]; [by left|by right].
Qed.

(** A normalised name that [safe_join] accepts is [.] or a sequence of
    plain components. *)
Lemma normpath_accepted p :
  p ≠ "" →
  is_abs (normpath p) = false →
  normpath p ≠ ".." →
  str_prefix "../" (normpath p) = false →
  normpath p = "." ∨
  ∃ names, names ≠ [] ∧ Forall plain names ∧ normpath p = join_slash names.
Proof.
  intros Hp%String.eqb_neq. unfold normpath. rewrite Hp.
  destruct (str_prefix "/" p).
  { destruct (_ && _); intros Habs; exfalso; revert Habs;
      change ("/" +:+ ?r) with (String "/" r);
      change ("//" +:+ ?r) with (String "/" (String "/" r)); done. }
  destruct (normpath_fold_normal (split_slash p) []
              (split_slash_components p)) as (n & names & -> & Hall).
  { by exists 0, []. }
  intros _. destruct n as [|n].
  - cbn [repeat app]. destruct names as [|c names]; [by left|].
    pose proof (join_slash_plain_nonempty (c :: names) Hall) as Hne.
    apply String.eqb_neq in Hne; [|done]. rewrite Hne.
    intros _ _. right. by exists (c :: names).
  - destruct (join_slash_parent n names) as [Heq|Hpre].
    + rewrite Heq. done.
    + destruct (String.eqb_spec (join_slash (repeat ".." (S n) ++ names)) "")
        as [Hnil|_]; [by rewrite Hnil in Hpre|].
      intros _ Hno. by rewrite Hpre in Hno.
Qed.

Section Confinement.
Context (app_dir : path).

(** X11: whatever name reaches the handler, the file it sends lies below
    the upload directory, and the bytes sent are those of that file. *)
Theorem download_confined (filename : string) (fs fs' : filesystem)
    (q : path) (data : string) :
  download_file app_dir filename fs = (Return (Attachment q data), fs') →
  ∃ names, names ≠ [] ∧ Forall plain names ∧
           q = UPLOAD_FOLDER app_dir ++ names ∧
           fs !! q = Some (File data).
Proof.
  unfold download_file, send_from_directory, safe_join.
  set (name := if String.eqb filename "" then filename else normpath filename).
  destruct (is_abs name) eqn:Habs; [done|].
  destruct (String.eqb_spec name "..") as [|Hpar]; [done|].
  destruct (str_prefix "../" name) eqn:Hpre; [done|]. cbn [orb].
  destruct (resolve fs (UPLOAD_FOLDER app_dir) name) as [q'|] eqn:Hres;
    [|done].
  destruct (node_at fs q') as [[data'|]|] eqn:Hnode; try done.
  intros [= -> ->]. unfold resolve in Hres. rewrite Habs in Hres.
  assert (Hroot : ∀ c, c = "" ∨ c = "." →
    walk fs (UPLOAD_FOLDER app_dir) [c] = Some q → False).
  { intros c Hc. cbn [walk].
    destruct (is_dir fs (UPLOAD_FOLDER app_dir)) eqn:Hdir; [|done].
    replace (String.eqb c "" || String.eqb c ".") with true
      by (by destruct Hc as [-> | ->]).
    intros [= <-]. unfold is_dir in Hdir. by rewrite Hnode in Hdir. }
  unfold name in *. clear name.
  destruct (String.eqb_spec filename "") as [->|Hne].
  { exfalso. apply (Hroot ""); [by left|exact Hres]. }
  destruct (normpath_accepted filename Hne Habs Hpar Hpre)
    as [Hdot|(names & Hnames & Hall & Heq)].
  { exfalso. rewrite Hdot in Hres. apply (Hroot "."); [by right|exact Hres]. }
  rewrite Heq in Hres.
  rewrite split_join_slash in Hres;
    [|done|by eapply Forall_impl; [exact Hall|intros ? [_ ?]]].
  apply walk_plain in Hres; [|done]. subst q.
  exists names. split_and!; [done|done|done|].
  unfold node_at in Hnode.
  destruct (UPLOAD_FOLDER app_dir ++ names) eqn:E; [|done].
  by apply app_eq_nil in E as [_ ->].
Qed.

End Confinement.

(** * Further properties of the handlers *)

(** ** The text store *)

Section TextStoreMore.
Context (app_dir : path).


(** X22: whatever [texts.json] holds, even text that is not JSON,
    [POST /clear-texts] succeeds unless the path is a directory; the
    file then holds [[]], the list read back is empty, and deleting
    any id from it changes nothing. *)
Theorem clear_texts_empties_store (fs : filesystem) :
  fs !! TEXT_FILE app_dir ≠ Some Dir →
  let fs' := <[TEXT_FILE app_dir := File "[]"]> fs in
  clear_texts app_dir fs = (Return success, fs') ∧
  load_texts app_dir fs' = Return (JArr []) ∧
  ∀ text_id, delete_text app_dir text_id fs' = (Return success, fs').
Proof.
  intros Hnd fs'. subst fs'.
  assert (Hload : load_texts app_dir (<[TEXT_FILE app_dir := File "[]"]> fs)
                  = Return (JArr [])).
  { by apply (load_texts_saved app_dir fs (JArr [])). }
  split_and!.
  - unfold clear_texts. by rewrite save_texts_written.
  - exact Hload.
  - intros text_id. unfold delete_text. rewrite Hload.
    cbn [obind py_filter_ids keep_other_ids].
    rewrite save_texts_written by (rewrite lookup_insert_eq; congruence).
    by rewrite insert_insert_eq.
Qed.

(** A successful [save_texts] has written the text of the value. *)
Lemma save_texts_inv (texts : json) (fs fs' : filesystem) :
  save_texts app_dir texts fs = Return fs' →
  fs !! TEXT_FILE app_dir ≠ Some Dir ∧
  fs' = <[TEXT_FILE app_dir := File (dumps texts)]> fs.
Proof.
  unfold save_texts, write_text. rewrite node_at_text_file.
  destruct (fs !! TEXT_FILE app_dir) as [[|]|]; [| done |]; by intros [= <-].
Qed.

(** What a successful [POST /text] has found and written. *)
Lemma add_text_success_inv (data : json) (u : N) (now : string)
    (fs fs' : filesystem) :
  add_text app_dir data u now fs = (Return success, fs') →
  ∃ s l, content_field data = Some (JStr s) ∧ strip s ≠ "" ∧
         load_texts app_dir fs = Return (JArr l) ∧
         fs' = <[TEXT_FILE app_dir :=
                   File (dumps (JArr (new_text u (strip s) now :: l)))]> fs.
Proof.
  unfold add_text. destruct (truthy data) eqn:Ht; cbn [negb]; [|done].
  destruct data as [| | |s0|l0|d]; try done.
  { cbn [py_in obind]. by destruct (negb _). }
  { cbn [py_in obind]. by destruct (negb _). }
  cbn [py_in py_getitem obind].
  destruct (dict_get "content" d) as [v|] eqn:Hget.
  2:{ rewrite bool_decide_eq_false_2 by (intros [? ?]; discriminate). done. }
  rewrite bool_decide_eq_true_2 by eauto. cbn [negb obind].
  destruct v as [| | |s| |]; try done. cbn [py_strip].
  destruct (String.eqb_spec (strip s) "") as [|Hs]; [done|].
  destruct (load_texts app_dir fs) as [v|] eqn:Hload; [|done].
  cbn [obind]. destruct v as [| | | |l|]; try done. cbn [py_insert0].
  destruct (save_texts _ _ _) as [fs1|] eqn:Hsave; [|done].
  intros [= <-]. apply save_texts_inv in Hsave as [_ ->].
  exists s, l. done.
Qed.


End TextStoreMore.

(** ** Removing snippets *)

Lemma keep_other_ids_filter text_id l :
  Forall (fun t => is_Some (text_id_of t)) l →
  keep_other_ids text_id l
  = Return (List.filter (fun t => negb (has_id text_id t)) l).
Proof.
  induction 1 as [|t l [i Hi] Hl IH]; [done|].
  cbn [keep_other_ids List.filter]. rewrite IH.
  destruct t as [| | | | |d]; try discriminate.
  unfold has_id. rewrite Hi. simpl in Hi. cbn [py_getitem]. rewrite Hi.
  cbn [obind]. unfold py_ne_str. by destruct (is_str text_id i).
Qed.

Lemma keep_other_ids_again text_id l r :
  keep_other_ids text_id l = Return r →
  keep_other_ids text_id r = Return r.
Proof.
  revert r. induction l as [|t l IH]; intros r.
  - by intros [= <-].
  - cbn [keep_other_ids].
    destruct (py_getitem t "id") as [i|] eqn:Hi; [|done]. cbn [obind].
    destruct (keep_other_ids text_id l) as [r'|]; [|done]. cbn [obind].
    specialize (IH r' eq_refl).
    destruct (py_ne_str i text_id) eqn:Hne; intros [= <-]; [|done].
    cbn [keep_other_ids]. rewrite Hi. cbn [obind]. rewrite IH. cbn [obind].
    by rewrite Hne.
Qed.

Lemma keep_other_ids_wf text_id l r :
  keep_other_ids text_id l = Return r →
  forallb wf_json l = true → forallb wf_json r = true.
Proof.
  revert r. induction l as [|t l IH]; intros r.
  - by intros [= <-].
  - cbn [keep_other_ids forallb].
    destruct (py_getitem t "id") as [i|]; [|done]. cbn [obind].
    destruct (keep_other_ids text_id l) as [r'|]; [|done]. cbn [obind].
    intros [= <-] [Ht Hl]%andb_true_iff.
    destruct (py_ne_str i text_id); [|by apply IH].
    cbn [forallb]. rewrite Ht. by apply IH.
Qed.

Lemma keep_other_ids_strs {A} text_id (f : A → string) (l : list A) r :
  keep_other_ids text_id ((fun x => JStr (f x)) <$> l) = Return r → r = [].
Proof. destruct l; [by intros [= <-]|done]. Qed.

Lemma filter_ids_absent text_id l :
  JStr text_id ∉ text_ids (List.filter (fun t => negb (has_id text_id t)) l).
Proof.
  induction l as [|t l IH]; [by intros ?%elem_of_nil|].
  cbn [List.filter]. destruct (has_id text_id t) eqn:Ht; [done|].
  cbn [negb]. unfold text_ids in *. cbn [omap list_omap].
  destruct (text_id_of t) as [i|] eqn:Hi; [|done].
  intros [Heq|Hin]%elem_of_cons; [subst i|by apply IH].
  unfold has_id in Ht. rewrite Hi in Ht. simpl in Ht.
  by rewrite String.eqb_refl in Ht.
Qed.

Section TextStoreDelete.
Context (app_dir : path).

(** What a successful [DELETE /text/<text_id>] has written. *)
Lemma delete_text_inv (text_id : string) (fs fs' : filesystem) :
  delete_text app_dir text_id fs = (Return success, fs') →
  ∃ r, wf_json (JArr r) = true ∧ keep_other_ids text_id r = Return r ∧
       fs !! TEXT_FILE app_dir ≠ Some Dir ∧
       fs' = <[TEXT_FILE app_dir := File (dumps (JArr r))]> fs.
Proof.
  unfold delete_text.
  destruct (load_texts app_dir fs) as [v|] eqn:Hload; [|done].
  destruct (load_texts_inv _ _ _ Hload) as [Hwf Hnd]. cbn [obind].
  destruct (py_filter_ids text_id v) as [v'|] eqn:Hf; [|done].
  rewrite save_texts_written by done. intros [= <-].
  destruct v as [| | |s|l|d]; try done; cbn [py_filter_ids] in Hf.
  - destruct (keep_other_ids _ _) as [r|] eqn:Hr; [|done].
    injection Hf as <-. exists r.
    by apply keep_other_ids_strs in Hr as ->.
  - destruct (keep_other_ids _ _) as [r|] eqn:Hr; [|done].
    injection Hf as <-. exists r. split_and!; [|by eapply keep_other_ids_again|done|done].
    by eapply keep_other_ids_wf.
  - destruct (keep_other_ids _ _) as [r|] eqn:Hr; [|done].
    injection Hf as <-. exists r.
    by apply (keep_other_ids_strs text_id fst) in Hr as ->.
Qed.

(** X19: when every snippet has an [id], [DELETE /text/<text_id>] stores
    the snippets whose id differs from [text_id], in their order; no
    snippet with that id is left. *)
Theorem delete_text_removes_id (text_id : string) (fs : filesystem)
    (l : list json) :
  load_texts app_dir fs = Return (JArr l) →
  Forall (fun t => is_Some (text_id_of t)) l →
  let r := List.filter (fun t => negb (has_id text_id t)) l in
  ∃ fs', delete_text app_dir text_id fs = (Return success, fs') ∧
         load_texts app_dir fs' = Return (JArr r) ∧
         JStr text_id ∉ text_ids r.
Proof.
  intros Hload Hids r.
  destruct (load_texts_inv _ _ _ Hload) as [Hwf Hnd].
  pose proof (keep_other_ids_filter text_id l Hids) as Hr. fold r in Hr.
  eexists. split_and!.
  - unfold delete_text. rewrite Hload. cbn [obind py_filter_ids].
    rewrite Hr. cbn [obind]. by rewrite save_texts_written.
  - apply load_texts_saved. by eapply keep_other_ids_wf.
  - apply filter_ids_absent.
Qed.

(** X20: a second [DELETE /text/<text_id>] for the same id succeeds and
    changes nothing. *)
Theorem delete_text_twice (text_id : string) (fs fs1 : filesystem) :
  delete_text app_dir text_id fs = (Return success, fs1) →
  delete_text app_dir text_id fs1 = (Return success, fs1).
Proof.
  intros (r & Hwf & Hr & Hnd & ->)%delete_text_inv.
  unfold delete_text. rewrite load_texts_saved by done.
  cbn [obind py_filter_ids]. rewrite Hr. cbn [obind].
  rewrite save_texts_written by (rewrite lookup_insert_eq; congruence).
  by rewrite insert_insert_eq.
Qed.



(** X23: after every successful [POST /text], [DELETE /text/<text_id>] and
    [POST /clear-texts] the store can be read and holds a list. *)
Theorem text_store_holds_a_list (fs fs' : filesystem) :
  (∀ data u now,
     add_text app_dir data u now fs = (Return success, fs') →
     ∃ l, load_texts app_dir fs' = Return (JArr l)) ∧
  (∀ text_id,
     delete_text app_dir text_id fs = (Return success, fs') →
     ∃ l, load_texts app_dir fs' = Return (JArr l)) ∧
  (clear_texts app_dir fs = (Return success, fs') →
   load_texts app_dir fs' = Return (JArr [])).
Proof.
  split_and!.
  - intros data u now (s & l & Hdata & Hs & Hload & ->)%add_text_success_inv.
    eexists. eapply add_text_stored; eauto.
  - intros text_id (r & Hwf & _ & _ & ->)%delete_text_inv.
    exists r. by apply load_texts_saved.
  - unfold clear_texts.
    destruct (save_texts _ _ _) as [fs1|] eqn:Hsave; [|done].
    intros [= <-]. apply save_texts_inv in Hsave as [_ ->].
    by apply (load_texts_saved app_dir fs (JArr [])).
Qed.

End TextStoreDelete.

(** * Further properties of uploads, downloads and deletions *)

(** ** Plain names *)

Lemma no_slash_not_abs c : has_char "/" c = false → is_abs c = false.
Proof.
  destruct c as [|a c]; [done|]. cbn [has_char].
  intros [Ha _]%orb_false_iff. unfold is_abs. cbn [str_prefix].
  by rewrite Ascii.eqb_sym, Ha.
Qed.

Lemma no_slash_not_parent_prefix c :
  has_char "/" c = false → str_prefix "../" c = false.
Proof.
  destruct c as [|a [|b [|x c]]]; try done; cbn [has_char str_prefix].
  - intros _. apply andb_false_r.
  - intros _. by rewrite !andb_false_r.
  - intros [_ [_ [Hx _]%orb_false_iff]%orb_false_iff]%orb_false_iff.
    by rewrite (Ascii.eqb_sym "/" x), Hx, !andb_false_r.
Qed.

Lemma plain_nonempty c : plain c → c ≠ "".
Proof. by intros [Hp _] ->. Qed.

Lemma resolve_plain (fs : filesystem) (dir : path) (c : string) :
  plain c →
  resolve fs dir c = if is_dir fs dir then Some (dir ++ [c]) else None.
Proof.
  intros [Hp Hs]. unfold resolve.
  rewrite (no_slash_not_abs _ Hs), (split_slash_no_slash _ Hs).
  by apply walk_proper.
Qed.

Lemma lookup_name_plain (fs : filesystem) (dir : path) (c : string) :
  plain c → is_dir fs dir = true →
  lookup_name fs dir c = fs !! (dir ++ [c]).
Proof.
  intros Hc Hdir. unfold lookup_name.
  by rewrite resolve_plain, Hdir, bind_some, node_at_snoc.
Qed.

Lemma normpath_plain c : plain c → normpath c = c.
Proof.
  intros [Hp Hs]. pose proof Hp as Hp'. unfold proper_name in Hp'.
  apply negb_true_iff in Hp'.
  apply orb_false_iff in Hp' as [[He Hd]%orb_false_iff Hdd].
  unfold normpath. rewrite He.
  pose proof (no_slash_not_abs _ Hs) as Habs. unfold is_abs in Habs.
  rewrite Habs, (split_slash_no_slash _ Hs). cbn [fold_left].
  unfold normpath_step. rewrite He, Hd, Hdd. cbn [orb negb app join_slash].
  by rewrite He.
Qed.

Lemma safe_join_plain c : plain c → safe_join c = Some c.
Proof.
  intros Hc. unfold safe_join. rewrite (normpath_plain _ Hc).
  destruct Hc as [Hp Hs].
  unfold proper_name in Hp. apply negb_true_iff in Hp.
  apply orb_false_iff in Hp as [[He _]%orb_false_iff Hdd].
  rewrite He.
  by rewrite (no_slash_not_abs _ Hs), (no_slash_not_parent_prefix _ Hs), Hdd.
Qed.

Lemma send_plain (fs : filesystem) (dir : path) (c : string) :
  plain c → is_dir fs dir = true →
  send_from_directory fs dir c
  = match fs !! (dir ++ [c]) with
    | Some (File data) => Attachment (dir ++ [c]) data
    | _ => Abort 404
    end.
Proof.
  intros Hc Hdir. unfold send_from_directory.
  by rewrite (safe_join_plain _ Hc), (resolve_plain _ _ _ Hc), Hdir,
    node_at_snoc.
Qed.

Lemma plain_candidate c k : plain c → plain (candidate c k).
Proof.
  intros [Hp Hs]. unfold candidate.
  change ("_" +:+ ?x) with (String "_" x).
  split.
  - apply proper_name_underscore. rewrite has_char_app. cbn [has_char].
    by rewrite orb_true_r.
  - rewrite <- (splitext_app c), has_char_app in Hs.
    apply orb_false_iff in Hs as [Hb He].
    rewrite has_char_app, Hb. cbn [has_char orb].
    by rewrite has_char_app, dec_no_slash, He.
Qed.

Lemma snoc_ne (d : path) (c : string) : d ++ [c] ≠ d.
Proof.
  intros H. apply (f_equal length) in H. rewrite List.length_app in H.
  simpl in H. lia.
Qed.

Lemma is_dir_insert_other (fs : filesystem) (d q : path) (n : node) :
  q ≠ d → is_dir (<[q := n]> fs) d = is_dir fs d.
Proof.
  intros Hne. unfold is_dir, node_at. destruct d; [done|].
  by rewrite lookup_insert_ne.
Qed.

Lemma is_dir_delete_other (fs : filesystem) (d q : path) :
  q ≠ d → is_dir (delete q fs) d = is_dir fs d.
Proof.
  intros Hne. unfold is_dir, node_at. destruct d; [done|].
  by rewrite lookup_delete_ne.
Qed.

(** ** Resolution in a larger file system *)

Lemma node_at_weaken (fs fs' : filesystem) (p : path) (n : node) :
  fs ⊆ fs' → node_at fs p = Some n → node_at fs' p = Some n.
Proof.
  intros Hsub. unfold node_at. destruct p; [done|].
  intros Hn. by eapply lookup_weaken.
Qed.

Lemma walk_weaken (fs fs' : filesystem) (cur : path) (comps : list string)
    (q : path) :
  fs ⊆ fs' → walk fs cur comps = Some q → walk fs' cur comps = Some q.
Proof.
  intros Hsub. revert cur. induction comps as [|c comps IH]; intros cur; [done|].
  cbn [walk]. destruct (is_dir fs cur) eqn:Hdir; [|done].
  assert (Hdir' : is_dir fs' cur = true).
  { unfold is_dir in *. destruct (node_at fs cur) as [[|]|] eqn:Hn; try done.
    by rewrite (node_at_weaken _ _ _ _ Hsub Hn). }
  rewrite Hdir'. destruct (_ || _); [apply IH|].
  destruct (String.eqb c ".."); apply IH.
Qed.

Lemma send_weaken (fs fs' : filesystem) (dir : path) (name : string)
    (q : path) (data : string) :
  fs ⊆ fs' →
  send_from_directory fs dir name = Attachment q data →
  send_from_directory fs' dir name = Attachment q data.
Proof.
  intros Hsub. unfold send_from_directory.
  destruct (safe_join name) as [name'|]; [|done].
  unfold resolve.
  destruct (walk fs _ _) as [q'|] eqn:Hw; [|done].
  rewrite (walk_weaken _ _ _ _ _ Hsub Hw).
  destruct (node_at fs q') as [[d|]|] eqn:Hn; try done.
  by rewrite (node_at_weaken _ _ _ _ Hsub Hn).
Qed.

(** ** Writing under a name that does not exist *)

Lemma save_as_free (fs fs' : filesystem) (dir : path) (name data : string) :
  os_path_exists fs dir name = false →
  save_as fs dir name data = Return fs' →
  ∃ q, resolve fs dir name = Some q ∧ fs !! q = None ∧
       fs' = <[q := File data]> fs.
Proof.
  unfold os_path_exists, lookup_name, save_as.
  intros Hfree%bool_decide_eq_false.
  destruct (resolve fs dir name) as [q|]; [|done].
  rewrite bind_some in Hfree.
  destruct (node_at fs q) as [n|] eqn:Hn; [by destruct Hfree; eauto|].
  destruct (proper_name _); [|done]. intros [= <-]. exists q.
  split_and!; [done| |done].
  unfold node_at in Hn. by destruct q.
Qed.

Section UploadMore.
Context (app_dir : path).

Lemma next_free_free (fs : filesystem) (base ext : string)
    (fuel counter : nat) (filename f : string) :
  next_free app_dir fs base ext fuel counter filename = Some f →
  os_path_exists fs (UPLOAD_FOLDER app_dir) f = false.
Proof.
  revert counter filename.
  induction fuel as [|fuel IH]; intros counter filename; cbn [next_free];
    destruct (os_path_exists fs (UPLOAD_FOLDER app_dir) filename) eqn:He;
    try done.
  - by intros [= <-].
  - apply IH.
  - by intros [= <-].
Qed.

(** What an upload can do to the file system. *)
Lemma upload_file_inv (file : option (string * string)) (fs fs' : filesystem)
    (r : outcome response) :
  upload_file app_dir file fs = Some (r, fs') →
  fs' = fs ∨ ∃ q data, fs !! q = None ∧ fs' = <[q := File data]> fs.
Proof.
  destruct file as [[name data]|]; [|intros [= _ <-]; by left].
  unfold upload_file. destruct (String.eqb name ""); [intros [= _ <-]; by left|].
  destruct (splitext name) as [base ext].
  destruct (next_free _ _ _ _ _ _ _) as [f|] eqn:Hf; [|done].
  rewrite bind_some. apply next_free_free in Hf.
  destruct (save_as _ _ _ _) as [fs1|] eqn:Hsave; intros [= _ <-]; [|by left].
  destruct (save_as_free _ _ _ _ _ Hf Hsave) as (q & _ & Hnone & ->).
  right. eauto.
Qed.

Lemma upload_file_subseteq (file : option (string * string))
    (fs fs' : filesystem) (r : outcome response) :
  upload_file app_dir file fs = Some (r, fs') → fs ⊆ fs'.
Proof.
  intros [->|(q & data & Hnone & ->)]%upload_file_inv; [done|].
  by apply insert_subseteq.
Qed.

(** X5: whatever the name, an upload keeps every entry of the file
    system as it was: it changes nothing, or it adds one file at a path
    that did not exist. *)
Theorem upload_never_overwrites (file : option (string * string))
    (fs fs' : filesystem) (r : outcome response) :
  upload_file app_dir file fs = Some (r, fs') →
  (∀ p n, fs !! p = Some n → fs' !! p = Some n) ∧
  (fs' = fs ∨ ∃ q data, fs !! q = None ∧ fs' = <[q := File data]> fs).
Proof.
  intros Hup. split; [|by eapply upload_file_inv].
  intros p n Hp. eapply lookup_weaken; [exact Hp|].
  by eapply upload_file_subseteq.
Qed.

(** X6: a download that succeeded before an upload returns the same file
    and the same bytes after it. *)
Theorem upload_keeps_downloads (file : option (string * string))
    (fs fs' : filesystem) (r : outcome response) (filename : string)
    (q : path) (data : string) :
  upload_file app_dir file fs = Some (r, fs') →
  download_file app_dir filename fs = (Return (Attachment q data), fs) →
  download_file app_dir filename fs' = (Return (Attachment q data), fs').
Proof.
  intros Hsub%upload_file_subseteq. unfold download_file.
  intros [= Hsend]. by rewrite (send_weaken _ _ _ _ _ _ Hsub Hsend).
Qed.

(** An upload under a plain name is stored in the upload directory. *)
Lemma upload_plain (c data : string) (fs : filesystem) :
  plain c →
  is_dir fs (UPLOAD_FOLDER app_dir) = true →
  ∃ f, plain f ∧ fs !! (UPLOAD_FOLDER app_dir ++ [f]) = None ∧
       (fs !! (UPLOAD_FOLDER app_dir ++ [c]) = None → f = c) ∧
       upload_file app_dir (Some (c, data)) fs
       = Some (Return (Jsonify 200 (JObj [("success", JBool true);
                                          ("filename", JStr f)])),
               <[UPLOAD_FOLDER app_dir ++ [f] := File data]> fs).
Proof.
  intros Hc Hdir. pose proof (plain_nonempty _ Hc) as Hne.
  apply String.eqb_neq in Hne.
  destruct (os_path_exists fs (UPLOAD_FOLDER app_dir) c) eqn:Hexists.
  - pose proof (splitext_ext_no_slash c) as Hext.
    pose proof (splitext_app c) as Happ.
    pose proof (fun k => plain_candidate c k Hc) as Hcand.
    unfold upload_file, candidate in *. rewrite Hne.
    destruct (splitext c) as [base ext]. cbn [fst snd] in *.
    cbn [next_free]. rewrite Hexists.
    destruct (loop_finds_free_name app_dir fs base ext Hext)
      as (k & Hk & -> & Hfree & Hbelow).
    rewrite <- Happ in Hexists.
    destruct (free_candidate_saved app_dir fs base ext Hext k data Hexists Hfree)
      as (q & Hres & Hnone & Hsave).
    rewrite (resolve_plain _ _ _ (Hcand k)), Hdir in Hres.
    injection Hres as <-.
    eexists. split_and!; [exact (Hcand k)|exact Hnone| |].
    + intros Hfresh. exfalso. rewrite Happ in Hexists.
      unfold os_path_exists in Hexists.
      rewrite (lookup_name_plain _ _ _ Hc Hdir), Hfresh in Hexists.
      by apply bool_decide_eq_true in Hexists as [? ?].
    + by rewrite bind_some, Hsave.
  - assert (Hnone : fs !! (UPLOAD_FOLDER app_dir ++ [c]) = None).
    { unfold os_path_exists in Hexists.
      rewrite (lookup_name_plain _ _ _ Hc Hdir) in Hexists.
      apply bool_decide_eq_false in Hexists. by apply eq_None_not_Some. }
    exists c. split_and!; [done|done|done|].
    unfold upload_file. rewrite Hne. destruct (splitext c) as [base ext].
    cbn [next_free]. rewrite Hexists, bind_some.
    unfold save_as. rewrite (resolve_plain _ _ _ Hc), Hdir, node_at_snoc, Hnone.
    destruct Hc as [Hp Hs]. rewrite (split_slash_no_slash _ Hs).
    cbn [List.last]. by rewrite Hp.
Qed.

(** X7: a plain name (no separator, not empty, not [.] or [..]) that does
    not exist in the upload directory is stored under that very name,
    and the response carries it. *)
Theorem upload_fresh_name (c data : string) (fs : filesystem) :
  plain c →
  is_dir fs (UPLOAD_FOLDER app_dir) = true →
  fs !! (UPLOAD_FOLDER app_dir ++ [c]) = None →
  upload_file app_dir (Some (c, data)) fs
  = Some (Return (Jsonify 200 (JObj [("success", JBool true);
                                     ("filename", JStr c)])),
          <[UPLOAD_FOLDER app_dir ++ [c] := File data]> fs).
Proof.
  intros Hc Hdir Hnone.
  destruct (upload_plain c data fs Hc Hdir) as (f & _ & _ & Hf & Hup).
  by rewrite (Hf Hnone) in Hup.
Qed.

(** X8: after the upload of a plain name, a download of the name that
    the response carries returns the bytes uploaded. *)
Theorem upload_then_download (c data : string) (fs : filesystem) :
  plain c →
  is_dir fs (UPLOAD_FOLDER app_dir) = true →
  ∃ f fs',
    upload_file app_dir (Some (c, data)) fs
    = Some (Return (Jsonify 200 (JObj [("success", JBool true);
                                       ("filename", JStr f)])), fs') ∧
    download_file app_dir f fs'
    = (Return (Attachment (UPLOAD_FOLDER app_dir ++ [f]) data), fs').
Proof.
  intros Hc Hdir.
  destruct (upload_plain c data fs Hc Hdir) as (f & Hf & Hnone & _ & Hup).
  eexists _, _. split; [exact Hup|].
  unfold download_file. rewrite send_plain; [|done|].
  - by rewrite lookup_insert_eq.
  - rewrite is_dir_insert_other; [done|apply snoc_ne].
Qed.

(** X9: after the upload of a plain name, deleting the name that the
    response carries gives back the file system from before the
    upload. *)
Theorem upload_then_delete (c data : string) (fs : filesystem) :
  plain c →
  is_dir fs (UPLOAD_FOLDER app_dir) = true →
  ∃ f fs',
    upload_file app_dir (Some (c, data)) fs
    = Some (Return (Jsonify 200 (JObj [("success", JBool true);
                                       ("filename", JStr f)])), fs') ∧
    delete_file app_dir f fs' = (Return success, fs).
Proof.
  intros Hc Hdir.
  destruct (upload_plain c data fs Hc Hdir) as (f & Hf & Hnone & _ & Hup).
  eexists _, _. split; [exact Hup|].
  rewrite (delete_file_regular app_dir f _ (UPLOAD_FOLDER app_dir ++ [f]) data).
  - by rewrite delete_insert_id.
  - rewrite resolve_plain, is_dir_insert_other; [by rewrite Hdir|apply snoc_ne|done].
  - by rewrite node_at_snoc, lookup_insert_eq.
Qed.

(** X10: the upload handler joins the client's file name to the upload
    directory as it is: the name [../c] is stored in the application
    directory, outside the upload directory. *)
Theorem upload_parent_reference (c data : string) (fs : filesystem) :
  plain c →
  is_dir fs (UPLOAD_FOLDER app_dir) = true →
  is_dir fs app_dir = true →
  fs !! (app_dir ++ [c]) = None →
  upload_file app_dir (Some ("../" +:+ c, data)) fs
  = Some (Return (Jsonify 200 (JObj [("success", JBool true);
                                     ("filename", JStr ("../" +:+ c))])),
          <[app_dir ++ [c] := File data]> fs).
Proof.
  intros [Hp Hs] Hup Happ Hnone.
  change ("../" +:+ c) with (String "." (String "." (String "/" c))).
  assert (Hsplit : split_slash (String "." (String "." (String "/" c)))
                   = [".."; c]).
  { cbn [split_slash]. rewrite (split_slash_no_slash _ Hs). reflexivity. }
  assert (Hres : resolve fs (UPLOAD_FOLDER app_dir)
                   (String "." (String "." (String "/" c)))
                 = Some (app_dir ++ [c])).
  { unfold resolve. rewrite Hsplit.
    change (is_abs _) with false. cbn iota.
    cbn [walk]. rewrite Hup.
    change (String.eqb ".." "" || String.eqb ".." ".") with false.
    change (String.eqb ".." "..") with true. cbn iota.
    unfold UPLOAD_FOLDER. rewrite removelast_last.
    rewrite Happ. pose proof Hp as Hp'. unfold proper_name in Hp'.
    apply negb_true_iff in Hp'. apply orb_false_iff in Hp' as [-> ->].
    reflexivity. }
  assert (Hfree : os_path_exists fs (UPLOAD_FOLDER app_dir)
                    (String "." (String "." (String "/" c))) = false).
  { unfold os_path_exists, lookup_name.
    rewrite Hres, bind_some, node_at_snoc, Hnone.
    apply bool_decide_eq_false_2. by intros [? ?]. }
  unfold upload_file. change (String.eqb _ "") with false. cbn iota.
  destruct (splitext _) as [base ext].
  cbn [next_free]. rewrite Hfree, bind_some.
  unfold save_as. rewrite Hres, node_at_snoc, Hnone, Hsplit.
  cbn [List.last]. by rewrite Hp.
Qed.

End UploadMore.

(** ** Downloads and deletions of plain names *)

Section FilesMore.
Context (app_dir : path).

Lemma route_segment_plain c : plain c → route_segment c = Some c.
Proof.
  intros [Hp Hs]. unfold route_segment. rewrite Hs.
  unfold proper_name in Hp. apply negb_true_iff in Hp.
  by apply orb_false_iff in Hp as [[-> _]%orb_false_iff _].
Qed.

(** X12: a request for a plain name sends the file of that name in the
    upload directory; a name that is missing there or that is a
    directory is answered 404.  The file system does not change. *)
Theorem download_plain_name (c : string) (fs : filesystem) :
  plain c →
  is_dir fs (UPLOAD_FOLDER app_dir) = true →
  GET_download app_dir c fs
  = (Return match fs !! (UPLOAD_FOLDER app_dir ++ [c]) with
            | Some (File data) => Attachment (UPLOAD_FOLDER app_dir ++ [c]) data
            | _ => Abort 404
            end, fs).
Proof.
  intros Hc Hdir. unfold GET_download, route.
  rewrite (route_segment_plain _ Hc). unfold download_file.
  by rewrite send_plain.
Qed.

Lemma delete_file_inv (filename : string) (fs fs' : filesystem)
    (r : outcome response) :
  delete_file app_dir filename fs = (r, fs') →
  fs' = fs ∨
  ∃ q data, resolve fs (UPLOAD_FOLDER app_dir) filename = Some q ∧
            node_at fs q = Some (File data) ∧
            r = Return success ∧ fs' = delete q fs.
Proof.
  unfold delete_file, os_remove.
  destruct (os_path_exists _ _ _); [|intros [= _ <-]; by left].
  destruct (resolve _ _ _) as [q|]; [|intros [= _ <-]; by left].
  destruct (node_at fs q) as [[data|]|] eqn:Hn; intros [= <- <-];
    [|by left..].
  right. by exists q, data.
Qed.

(** X13: deleting a file of the upload directory removes exactly its
    entry; afterwards a download of the name is answered 404, and so is
    a second deletion. *)
Theorem delete_then_gone (c data : string) (fs : filesystem) :
  plain c →
  is_dir fs (UPLOAD_FOLDER app_dir) = true →
  fs !! (UPLOAD_FOLDER app_dir ++ [c]) = Some (File data) →
  let fs' := delete (UPLOAD_FOLDER app_dir ++ [c]) fs in
  delete_file app_dir c fs = (Return success, fs') ∧
  download_file app_dir c fs' = (Return (Abort 404), fs') ∧
  delete_file app_dir c fs' = (Return (error 404 "文件不存在"), fs').
Proof.
  intros Hc Hdir Hfile fs'. subst fs'.
  assert (Hdir' : is_dir (delete (UPLOAD_FOLDER app_dir ++ [c]) fs)
                    (UPLOAD_FOLDER app_dir) = true).
  { rewrite is_dir_delete_other; [done|apply snoc_ne]. }
  split_and!.
  - apply (delete_file_regular app_dir c fs _ data).
    + by rewrite resolve_plain, Hdir.
    + by rewrite node_at_snoc.
  - unfold download_file. rewrite send_plain by done.
    by rewrite lookup_delete_eq.
  - apply delete_file_missing.
    by rewrite lookup_name_plain, lookup_delete_eq.
Qed.

(** X14: a request [POST /delete/<filename>] changes nothing or removes
    one regular file directly inside the upload directory. *)
Theorem POST_delete_confined (tail : string) (fs fs' : filesystem)
    (r : outcome response) :
  is_dir fs app_dir = true →
  POST_delete app_dir tail fs = (r, fs') →
  fs' = fs ∨
  ∃ data, plain tail ∧
          fs !! (UPLOAD_FOLDER app_dir ++ [tail]) = Some (File data) ∧
          r = Return success ∧
          fs' = delete (UPLOAD_FOLDER app_dir ++ [tail]) fs.
Proof.
  intros Happ. unfold POST_delete, route, route_segment.
  destruct (String.eqb_spec tail "") as [|Hne]; [intros [= _ <-]; by left|].
  destruct (has_char "/" tail) eqn:Hs; [intros [= _ <-]; by left|].
  cbn [orb].
  intros [->|(q & data & Hres & Hnode & -> & ->)]%delete_file_inv; [by left|].
  destruct (proper_name tail) eqn:Hp.
  - rewrite resolve_plain in Hres by done.
    destruct (is_dir fs (UPLOAD_FOLDER app_dir)); [|done].
    injection Hres as <-. rewrite node_at_snoc in Hnode.
    right. exists data. done.
  - exfalso. unfold resolve in Hres.
    rewrite (no_slash_not_abs _ Hs), (split_slash_no_slash _ Hs) in Hres.
    cbn [walk] in Hres.
    destruct (is_dir fs (UPLOAD_FOLDER app_dir)) eqn:Hdir; [|done].
    unfold proper_name in Hp. apply negb_false_iff in Hp.
    apply String.eqb_neq in Hne.
    rewrite Hne in *. cbn [orb] in *.
    destruct (String.eqb tail ".").
    + injection Hres as <-. unfold is_dir in Hdir. by rewrite Hnode in Hdir.
    + cbn [orb] in *. rewrite Hp in Hres. injection Hres as <-.
      unfold UPLOAD_FOLDER in Hnode. rewrite removelast_last in Hnode.
      unfold is_dir in Happ. by rewrite Hnode in Happ.
Qed.

End FilesMore.

(** * The upload directory is missing *)

Lemma resolve_not_dir (fs : filesystem) (dir : path) (name : string) :
  is_dir fs dir = false → is_abs name = false → resolve fs dir name = None.
Proof.
  intros Hdir Habs. unfold resolve. rewrite Habs.
  pose proof (split_slash_nonempty name) as Hne.
  destruct (split_slash name) as [|c comps]; [done|].
  cbn [walk]. by rewrite Hdir.
Qed.

Lemma safe_join_not_abs name name' :
  safe_join name = Some name' → is_abs name' = false.
Proof.
  unfold safe_join.
  set (n := if String.eqb name "" then name else normpath name).
  destruct (is_abs n) eqn:Habs; [done|].
  destruct (_ || _); [done|]. by intros [= <-].
Qed.

Section MissingDirectory.
Context (app_dir : path).

(** X24: when the upload directory does not exist, an upload under a
    relative name raises [FileNotFoundError] and stores nothing, every
    download is answered 404, and a deletion under a relative name is
    answered 404. *)
Theorem missing_upload_directory (fs : filesystem) :
  fs !! UPLOAD_FOLDER app_dir = None →
  (∀ name data, name ≠ "" → is_abs name = false →
     upload_file app_dir (Some (name, data)) fs
     = Some (Raise FileNotFoundError, fs)) ∧
  (∀ filename,
     download_file app_dir filename fs = (Return (Abort 404), fs)) ∧
  (∀ filename, is_abs filename = false →
     delete_file app_dir filename fs
     = (Return (error 404 "文件不存在"), fs)).
Proof.
  intros Hnone.
  assert (Hdir : is_dir fs (UPLOAD_FOLDER app_dir) = false).
  { unfold is_dir, UPLOAD_FOLDER in *. by rewrite node_at_snoc, Hnone. }
  assert (Hfree : ∀ name, is_abs name = false →
            lookup_name fs (UPLOAD_FOLDER app_dir) name = None).
  { intros name Habs. unfold lookup_name.
    by rewrite (resolve_not_dir _ _ _ Hdir Habs). }
  split_and!.
  - intros name data Hne%String.eqb_neq Habs. unfold upload_file.
    rewrite Hne. destruct (splitext name) as [base ext].
    cbn [next_free]. unfold os_path_exists. rewrite (Hfree _ Habs).
    rewrite bool_decide_eq_false_2 by (intros [? ?]; discriminate).
    rewrite bind_some. unfold save_as.
    by rewrite (resolve_not_dir _ _ _ Hdir Habs).
  - intros filename. unfold download_file, send_from_directory.
    destruct (safe_join filename) as [name|] eqn:Hsafe; [|done].
    by rewrite (resolve_not_dir _ _ _ Hdir (safe_join_not_abs _ _ Hsafe)).
  - intros filename Habs. apply delete_file_missing. by apply Hfree.
Qed.

End MissingDirectory.

(** * The sizes shown *)

Lemma format_1f_multiple (m : N) (k : nat) :
  format_1f (m * 1024 ^ N.of_nat k) k = int_repr (Z.of_N m) +:+ ".0".
Proof.
  unfold format_1f. cbv zeta.
  set (d := (1024 ^ N.of_nat k)%N).
  assert (Hd : (d ≠ 0)%N) by (apply N.pow_nonzero; lia).
  replace (10 * (m * d))%N with (10 * m * d)%N by lia.
  rewrite N.div_mul, N.Div0.mod_mul by done.
  replace (2 * 0 <? d)%N with true by (symmetry; apply N.ltb_lt; lia).
  replace (10 * m / 10)%N with m by (symmetry; rewrite N.mul_comm; by apply N.div_mul).
  replace ((10 * m) mod 10)%N with 0%N
    by (symmetry; rewrite N.mul_comm; by apply N.Div0.mod_mul).
  reflexivity.
Qed.

(** Settles the tests [size < 1024] of the loop once the size is known. *)
Ltac decide_size_tests :=
  repeat match goal with
  | |- context [(?a <? ?b)%N] =>
      destruct (N.ltb_spec a b); [try (exfalso; lia)|try (exfalso; lia)]
  end.

(** X27: the units are binary: [m * 1024^k] bytes, for [m] below 1024 and
    [k] up to 4, are shown as [m.0] with the [k]-th of the units B, KB,
    MB, GB, TB. *)
Theorem format_size_exact_units (m : N) (k : nat) :
  (m < 1024)%N → k ≤ 4 → (k = 0 ∨ (1 ≤ m)%N) →
  format_size (m * 1024 ^ N.of_nat k)
  = int_repr (Z.of_N m) +:+ ".0 " +:+ unit_name k.
Proof.
  intros Hm Hk H0. unfold format_size.
  destruct k as [|[|[|[|[|k]]]]]; [..|lia]; cbn [format_size_loop];
    rewrite format_1f_multiple; simpl N.of_nat;
    (destruct H0 as [H0|H0]; [try discriminate H0|]);
    decide_size_tests.
  all: by rewrite str_app_assoc.
Qed.

Lemma format_1f_just_below (size : N) (j : nat) :
  1 ≤ j ≤ 3 →
  (20479 * 1024 ^ N.of_nat j ≤ 20 * size)%N →
  (size < 1024 * 1024 ^ N.of_nat j)%N →
  format_1f size j = "1024.0".
Proof.
  intros Hj Hlo Hhi. unfold format_1f. cbv zeta.
  assert (Hk : j = 1 ∨ j = 2 ∨ j = 3) by lia.
  assert (Hd : (1024 ^ N.of_nat j ≠ 0)%N) by (apply N.pow_nonzero; lia).
  pose proof (N.div_mod (10 * size) _ Hd) as E.
  pose proof (N.mod_upper_bound (10 * size) _ Hd) as Hr.
  revert E Hr.
  generalize ((10 * size) mod 1024 ^ N.of_nat j)%N as r.
  generalize (10 * size / 1024 ^ N.of_nat j)%N as q.
  intros q r E Hr.
  assert (Hq : q = 10239%N) by (destruct Hk as [->|[->| ->]]; simpl N.of_nat in *; lia).
  subst q.
  destruct (N.ltb_spec (2 * r) (1024 ^ N.of_nat j));
    [exfalso; destruct Hk as [->|[->| ->]]; simpl N.of_nat in *; lia|].
  destruct (N.ltb_spec (1024 ^ N.of_nat j) (2 * r));
    [|exfalso; destruct Hk as [->|[->| ->]]; simpl N.of_nat in *; lia].
  reflexivity.
Qed.

(** X28: a size less than 0.05 units below the next unit is shown as
    [1024.0] of its own unit: from 1048525 to 1048575 bytes the text is
    [1024.0 KB], not [1.0 MB]. *)
Theorem format_size_just_below_unit (size : N) (j : nat) :
  1 ≤ j ≤ 3 →
  (20479 * 1024 ^ N.of_nat j ≤ 20 * size)%N →
  (size < 1024 * 1024 ^ N.of_nat j)%N →
  format_size size = "1024.0 " +:+ unit_name j.
Proof.
  intros Hj Hlo Hhi.
  pose proof (format_1f_just_below size j Hj Hlo Hhi) as Hf.
  unfold format_size.
  assert (Hk : j = 1 ∨ j = 2 ∨ j = 3) by lia.
  destruct Hk as [->|[->| ->]]; cbn [format_size_loop]; rewrite Hf;
    simpl N.of_nat in *; decide_size_tests; reflexivity.
Qed.

(** * The list of files *)

(** ** The order of the times *)

Lemma ascii_compare_refl a : Ascii.compare a a = Eq.
Proof. apply N.compare_refl. Qed.

Lemma ascii_compare_lt_trans a b c :
  Ascii.compare a b = Lt → Ascii.compare b c = Lt → Ascii.compare a c = Lt.
Proof.
  unfold Ascii.compare. rewrite !N.compare_lt_iff. apply N.lt_trans.
Qed.

Lemma str_compare_lt_trans a b c :
  String.compare a b = Lt → String.compare b c = Lt → String.compare a c = Lt.
Proof.
  revert b c. induction a as [|x a IH]; intros [|y b] [|z c]; try done.
  cbn [String.compare].
  destruct (Ascii.compare x y) eqn:Exy; [|clear IH|done];
    destruct (Ascii.compare y z) eqn:Eyz; try done.
  - apply Ascii.compare_eq_iff in Exy as ->. rewrite Eyz. apply IH.
  - apply Ascii.compare_eq_iff in Exy as ->. by rewrite Eyz.
  - apply Ascii.compare_eq_iff in Eyz as <-. by rewrite Exy.
  - by rewrite (ascii_compare_lt_trans _ _ _ Exy Eyz).
Qed.

Lemma str_ltb_asym a b : String.ltb a b = true → String.ltb b a = false.
Proof.
  unfold String.ltb. rewrite (String.compare_antisym b a).
  by destruct (String.compare a b).
Qed.

Lemma str_ltb_cases a b c :
  String.ltb a c = true → String.ltb a b = true ∨ String.ltb b c = true.
Proof.
  unfold String.ltb.
  destruct (String.compare a c) eqn:Eac; try done. intros _.
  destruct (String.compare a b) eqn:Eab; [|by left|].
  - apply String.compare_eq_iff in Eab as ->. rewrite Eac. by right.
  - right. rewrite String.compare_antisym in Eab.
    destruct (String.compare b a) eqn:Eba; try done.
    by rewrite (str_compare_lt_trans _ _ _ Eba Eac).
Qed.

Lemma newer_first_trans x y z :
  newer_first x y → newer_first y z → newer_first x z.
Proof.
  unfold newer_first. intros Hxy Hyz.
  destruct (String.ltb (time_of x) (time_of z)) eqn:Hxz; [|done].
  destruct (str_ltb_cases _ (time_of y) _ Hxz); congruence.
Qed.

Lemma insert_desc_perm x l : insert_desc x l ≡ₚ x :: l.
Proof.
  induction l as [|y l IH]; [done|]. cbn [insert_desc].
  destruct (String.ltb _ _); [|done]. by rewrite IH, Permutation_swap.
Qed.

Lemma sort_by_time_desc_perm l : sort_by_time_desc l ≡ₚ l.
Proof.
  induction l as [|x l IH]; [done|]. unfold sort_by_time_desc. cbn [foldr].
  rewrite insert_desc_perm. by f_equiv.
Qed.

Lemma insert_desc_sorted x l :
  StronglySorted newer_first l → StronglySorted newer_first (insert_desc x l).
Proof.
  induction 1 as [|y l Hl IH Hy]; cbn [insert_desc].
  - by repeat constructor.
  - destruct (String.ltb (time_of x) (time_of y)) eqn:Hxy.
    + constructor; [done|]. rewrite insert_desc_perm.
      constructor; [|done]. by apply str_ltb_asym.
    + constructor; [by constructor|]. constructor; [done|].
      eapply Forall_impl; [exact Hy|]. intros z Hz.
      by apply (newer_first_trans x y z).
Qed.

Lemma sort_by_time_desc_sorted l :
  StronglySorted newer_first (sort_by_time_desc l).
Proof.
  induction l as [|x l IH]; [constructor|]. by apply insert_desc_sorted.
Qed.

Section ListingProps.
Context (app_dir : path) (listing : list string) (mtime : string → string).

Lemma elem_of_list_files (fs : filesystem) (names : list string) (x : json) :
  x ∈ list_files app_dir mtime fs names ↔
  ∃ c data, c ∈ names ∧
            lookup_name fs (UPLOAD_FOLDER app_dir) c = Some (File data) ∧
            x = file_entry mtime c data.
Proof.
  induction names as [|c names IH]; cbn [list_files].
  - split; [by intros ?%elem_of_nil|]. by intros (? & ? & ?%elem_of_nil & _).
  - destruct (lookup_name fs (UPLOAD_FOLDER app_dir) c) as [[data|]|] eqn:Hc.
    + rewrite elem_of_cons, IH. split.
      * intros [->|(c' & d' & Hin & Hl & ->)].
        -- exists c, data. by rewrite elem_of_cons; auto.
        -- exists c', d'. rewrite elem_of_cons; auto.
      * intros (c' & d' & [->|Hin]%elem_of_cons & Hl & ->).
        -- left. congruence.
        -- right. eauto.
    + rewrite IH. split.
      * intros (c' & d' & Hin & Hl & ->). exists c', d'.
        rewrite elem_of_cons; auto.
      * intros (c' & d' & [->|Hin]%elem_of_cons & Hl & ->); [congruence|eauto].
    + rewrite IH. split.
      * intros (c' & d' & Hin & Hl & ->). exists c', d'.
        rewrite elem_of_cons; auto.
      * intros (c' & d' & [->|Hin]%elem_of_cons & Hl & ->); [congruence|eauto].
Qed.

Lemma length_list_files (fs : filesystem) (names : list string) :
  length (list_files app_dir mtime fs names)
  = length (List.filter (os_path_isfile fs (UPLOAD_FOLDER app_dir)) names).
Proof.
  induction names as [|c names IH]; [done|].
  cbn [list_files List.filter]. unfold os_path_isfile at 1.
  destruct (lookup_name fs (UPLOAD_FOLDER app_dir) c) as [[data|]|];
    cbn [length]; by rewrite IH.
Qed.

(** X25: when the upload directory exists, [get_files] returns one entry
    for every name of the listing that is a regular file, with the
    name, the formatted size and the time of the file; directories are
    left out. *)
Theorem get_files_lists_regular_files (fs : filesystem) :
  is_dir fs (UPLOAD_FOLDER app_dir) = true →
  ∃ files,
    get_files app_dir listing mtime fs = Return files ∧
    (∀ x, x ∈ files ↔
          ∃ c data, c ∈ listing ∧
                    lookup_name fs (UPLOAD_FOLDER app_dir) c = Some (File data) ∧
                    x = file_entry mtime c data) ∧
    length files
    = length (List.filter (os_path_isfile fs (UPLOAD_FOLDER app_dir)) listing).
Proof.
  intros Hdir. unfold get_files, is_dir in *.
  destruct (node_at fs (UPLOAD_FOLDER app_dir)) as [[|]|]; try done.
  eexists. split_and!; [done| |].
  - intros x. by rewrite sort_by_time_desc_perm, elem_of_list_files.
  - by rewrite sort_by_time_desc_perm, length_list_files.
Qed.

(** X26: in the list that [get_files] returns no entry comes after an
    entry with a later time. *)
Theorem get_files_newest_first (fs : filesystem) (files : list json) :
  get_files app_dir listing mtime fs = Return files →
  StronglySorted newer_first files.
Proof.
  unfold get_files.
  destruct (node_at fs (UPLOAD_FOLDER app_dir)) as [[|]|]; try done.
  intros [= <-]. apply sort_by_time_desc_sorted.
Qed.


End ListingProps.

(** * The properties on a concrete installation *)

Lemma upload_three_times :
  let up := UPLOAD_FOLDER example_dir in
  let ok name := Return (Jsonify 200 (JObj [("success", JBool true);
                                            ("filename", JStr name)])) in
  let fs1 := <[up ++ ["a.txt"] := File "one"]> example_fs in
  let fs2 := <[up ++ ["a_1.txt"] := File "two"]> fs1 in
  let fs3 := <[up ++ ["a_2.txt"] := File "three"]> fs2 in
  upload_file example_dir (Some ("a.txt", "one")) example_fs
  = Some (ok "a.txt", fs1) ∧
  upload_file example_dir (Some ("a.txt", "two")) fs1
  = Some (ok "a_1.txt", fs2) ∧
  upload_file example_dir (Some ("a.txt", "three")) fs2
  = Some (ok "a_2.txt", fs3).
Proof. cbv zeta. split_and!; reflexivity. Qed.


Lemma download_refuses_escaping_names_witness :
  GET_download example_dir "../../etc/passwd" example_fs_a
  = (Return (Abort 404), example_fs_a).
Proof.
  apply (download_refuses_escaping_names example_dir "../../etc/passwd").
  reflexivity.
Defined.

Lemma delete_file_directory_raises_witness :
  delete_file example_dir "sub" example_fs_sub
  = (Raise IsADirectoryError, example_fs_sub).
Proof.
  apply (delete_file_directory_raises example_dir "sub" example_fs_sub).
  vm_compute. reflexivity.
Defined.

(** The parent directory is a directory too: [POST /delete/..] raises in
    every installation. *)
Lemma delete_parent_raises :
  POST_delete example_dir ".." example_fs = (Raise IsADirectoryError, example_fs).
Proof. reflexivity. Qed.



Lemma add_text_non_string_content_witness :
  add_text example_dir (JObj [("content", JInt 5)]) example_uuid
           "2024-01-01 00:00:00" example_fs
  = (Raise AttributeError, example_fs).
Proof.
  apply (add_text_non_string_content example_dir [("content", JInt 5)] (JInt 5)).
  - reflexivity.
  - discriminate.
Defined.


(** The content stored for ["  hello  "] is ["hello"]. *)
Lemma strip_hello : strip "  hello  " = "hello".
Proof. vm_compute. reflexivity. Qed.

Lemma delete_text_unknown_id_witness :
  ∃ fs', delete_text example_dir "ffffffff" example_fs_text
         = (Return success, fs') ∧
         load_texts example_dir fs'
         = Return (JArr [new_text example_uuid "hello" "2024-01-01 00:00:00"]).
Proof.
  apply (delete_text_unknown_id example_dir "ffffffff" example_fs_text).
  - vm_compute. reflexivity.
  - constructor; [|constructor]. eexists. split; vm_compute; reflexivity.
Defined.

Lemma save_load_stable_witness :
  save_load_cycle example_dir example_fs_text = Return example_fs_text.
Proof.
  apply (save_load_stable example_dir example_fs_text
           (JArr [new_text example_uuid "hello" "2024-01-01 00:00:00"])).
  - reflexivity.
  - vm_compute. reflexivity.
Defined.



(** ** Further properties on the concrete installation *)


Lemma clear_texts_empties_store_witness :
  let fs' := <[TEXT_FILE example_dir := File "[]"]> example_fs_corrupt in
  clear_texts example_dir example_fs_corrupt = (Return success, fs') ∧
  load_texts example_dir fs' = Return (JArr []) ∧
  ∀ text_id, delete_text example_dir text_id fs' = (Return success, fs').
Proof.
  apply (clear_texts_empties_store example_dir example_fs_corrupt).
  vm_compute. discriminate.
Defined.


Lemma delete_text_removes_id_witness :
  let r := List.filter (fun t => negb (has_id "01234567" t))
             [new_text example_uuid "hello" "2024-01-01 00:00:00"] in
  ∃ fs', delete_text example_dir "01234567" example_fs_text
         = (Return success, fs') ∧
         load_texts example_dir fs' = Return (JArr r) ∧
         JStr "01234567" ∉ text_ids r.
Proof.
  apply (delete_text_removes_id example_dir "01234567" example_fs_text).
  - vm_compute. reflexivity.
  - constructor; [|constructor]. eexists. reflexivity.
Defined.

Lemma delete_text_twice_witness :
  delete_text example_dir "01234567"
    (<[TEXT_FILE example_dir := File "[]"]> example_fs_text)
  = (Return success, <[TEXT_FILE example_dir := File "[]"]> example_fs_text).
Proof.
  apply (delete_text_twice example_dir "01234567" example_fs_text).
  reflexivity.
Defined.


Lemma text_store_holds_a_list_witness :
  ∃ l, load_texts example_dir
         (<[TEXT_FILE example_dir := File "[]"]> example_fs_text)
       = Return (JArr l).
Proof.
  apply (proj1 (proj2 (text_store_holds_a_list example_dir example_fs_text
                         (<[TEXT_FILE example_dir := File "[]"]> example_fs_text)))
           "01234567").
  reflexivity.
Defined.

Lemma upload_never_overwrites_witness :
  let fs' := <[UPLOAD_FOLDER example_dir ++ ["a_1.txt"] := File "two"]>
               example_fs_a in
  (∀ p n, example_fs_a !! p = Some n → fs' !! p = Some n) ∧
  (fs' = example_fs_a ∨
   ∃ q data, example_fs_a !! q = None ∧ fs' = <[q := File data]> example_fs_a).
Proof.
  apply (upload_never_overwrites example_dir (Some ("a.txt", "two"))
           example_fs_a _
           (Return (Jsonify 200 (JObj [("success", JBool true);
                                       ("filename", JStr "a_1.txt")])))).
  reflexivity.
Defined.

Lemma upload_keeps_downloads_witness :
  let fs' := <[UPLOAD_FOLDER example_dir ++ ["a_1.txt"] := File "two"]>
               example_fs_a in
  download_file example_dir "a.txt" fs'
  = (Return (Attachment (UPLOAD_FOLDER example_dir ++ ["a.txt"]) "one"), fs').
Proof.
  apply (upload_keeps_downloads example_dir (Some ("a.txt", "two"))
           example_fs_a _
           (Return (Jsonify 200 (JObj [("success", JBool true);
                                       ("filename", JStr "a_1.txt")])))).
  - reflexivity.
  - reflexivity.
Defined.

Lemma upload_fresh_name_witness :
  upload_file example_dir (Some ("a.txt", "one")) example_fs
  = Some (Return (Jsonify 200 (JObj [("success", JBool true);
                                     ("filename", JStr "a.txt")])),
          <[UPLOAD_FOLDER example_dir ++ ["a.txt"] := File "one"]> example_fs).
Proof.
  apply (upload_fresh_name example_dir "a.txt" "one" example_fs).
  - split; reflexivity.
  - vm_compute. reflexivity.
  - vm_compute. reflexivity.
Defined.

Lemma upload_then_download_witness :
  ∃ f fs',
    upload_file example_dir (Some ("a.txt", "two")) example_fs_a
    = Some (Return (Jsonify 200 (JObj [("success", JBool true);
                                       ("filename", JStr f)])), fs') ∧
    download_file example_dir f fs'
    = (Return (Attachment (UPLOAD_FOLDER example_dir ++ [f]) "two"), fs').
Proof.
  apply (upload_then_download example_dir "a.txt" "two" example_fs_a).
  - split; reflexivity.
  - vm_compute. reflexivity.
Defined.

Lemma upload_then_delete_witness :
  ∃ f fs',
    upload_file example_dir (Some ("a.txt", "two")) example_fs_a
    = Some (Return (Jsonify 200 (JObj [("success", JBool true);
                                       ("filename", JStr f)])), fs') ∧
    delete_file example_dir f fs' = (Return success, example_fs_a).
Proof.
  apply (upload_then_delete example_dir "a.txt" "two" example_fs_a).
  - split; reflexivity.
  - vm_compute. reflexivity.
Defined.

Lemma upload_parent_reference_witness :
  upload_file example_dir (Some ("../" +:+ "texts.json", "not json")) example_fs
  = Some (Return (Jsonify 200 (JObj [("success", JBool true);
                                     ("filename", JStr ("../" +:+ "texts.json"))])),
          <[example_dir ++ ["texts.json"] := File "not json"]> example_fs).
Proof.
  apply (upload_parent_reference example_dir "texts.json" "not json" example_fs).
  - split; reflexivity.
  - vm_compute. reflexivity.
  - vm_compute. reflexivity.
  - vm_compute. reflexivity.
Defined.

Lemma download_confined_witness :
  ∃ names, names ≠ [] ∧ Forall plain names ∧
           UPLOAD_FOLDER example_dir ++ ["a.txt"]
           = UPLOAD_FOLDER example_dir ++ names ∧
           example_fs_a !! (UPLOAD_FOLDER example_dir ++ ["a.txt"])
           = Some (File "one").
Proof.
  apply (download_confined example_dir "a.txt" example_fs_a example_fs_a).
  reflexivity.
Defined.

Lemma download_plain_name_witness :
  GET_download example_dir "a.txt" example_fs_a
  = (Return match example_fs_a !! (UPLOAD_FOLDER example_dir ++ ["a.txt"]) with
            | Some (File data) =>
                Attachment (UPLOAD_FOLDER example_dir ++ ["a.txt"]) data
            | _ => Abort 404
            end, example_fs_a).
Proof.
  apply (download_plain_name example_dir "a.txt" example_fs_a).
  - split; reflexivity.
  - vm_compute. reflexivity.
Defined.

Lemma delete_then_gone_witness :
  let fs' := delete (UPLOAD_FOLDER example_dir ++ ["a.txt"]) example_fs_a in
  delete_file example_dir "a.txt" example_fs_a = (Return success, fs') ∧
  download_file example_dir "a.txt" fs' = (Return (Abort 404), fs') ∧
  delete_file example_dir "a.txt" fs'
  = (Return (error 404 "文件不存在"), fs').
Proof.
  apply (delete_then_gone example_dir "a.txt" "one" example_fs_a).
  - split; reflexivity.
  - vm_compute. reflexivity.
  - vm_compute. reflexivity.
Defined.

Lemma POST_delete_confined_witness :
  delete (UPLOAD_FOLDER example_dir ++ ["a.txt"]) example_fs_a = example_fs_a ∨
  ∃ data, plain "a.txt" ∧
          example_fs_a !! (UPLOAD_FOLDER example_dir ++ ["a.txt"])
          = Some (File data) ∧
          Return success = Return success ∧
          delete (UPLOAD_FOLDER example_dir ++ ["a.txt"]) example_fs_a
          = delete (UPLOAD_FOLDER example_dir ++ ["a.txt"]) example_fs_a.
Proof.
  apply (POST_delete_confined example_dir "a.txt" example_fs_a).
  - vm_compute. reflexivity.
  - reflexivity.
Defined.

Lemma save_load_idempotent_witness :
  save_load_cycle example_dir
    (<[TEXT_FILE example_dir := File (dumps (JArr [JInt 1; JInt 2]))]>
       example_fs_compact)
  = Return (<[TEXT_FILE example_dir := File (dumps (JArr [JInt 1; JInt 2]))]>
              example_fs_compact).
Proof.
  apply (save_load_idempotent example_dir example_fs_compact).
  reflexivity.
Defined.

Lemma save_load_missing_witness :
  save_load_cycle example_dir example_fs
  = Return (<[TEXT_FILE example_dir := File "[]"]> example_fs).
Proof.
  apply (save_load_missing example_dir example_fs).
  vm_compute. reflexivity.
Defined.


Lemma add_text_400_only_if_witness :
  content_field (JObj [("content", JStr "   ")]) = None ∨
  ∃ s, content_field (JObj [("content", JStr "   ")]) = Some (JStr s) ∧
       strip s = "".
Proof.
  apply (add_text_400_only_if example_dir (JObj [("content", JStr "   ")])
           example_uuid "2024-01-01 00:00:00" example_fs
           (JObj [("error", JStr "内容不能为空")]) example_fs).
  reflexivity.
Defined.

Lemma missing_upload_directory_witness :
  (∀ name data, name ≠ "" → is_abs name = false →
     upload_file example_dir (Some (name, data)) example_fs_bare
     = Some (Raise FileNotFoundError, example_fs_bare)) ∧
  (∀ filename,
     download_file example_dir filename example_fs_bare
     = (Return (Abort 404), example_fs_bare)) ∧
  (∀ filename, is_abs filename = false →
     delete_file example_dir filename example_fs_bare
     = (Return (error 404 "文件不存在"), example_fs_bare)).
Proof.
  apply (missing_upload_directory example_dir example_fs_bare).
  vm_compute. reflexivity.
Defined.

Lemma format_size_exact_units_witness :
  format_size (512 * 1024 ^ N.of_nat 2)
  = int_repr (Z.of_N 512) +:+ ".0 " +:+ unit_name 2.
Proof.
  apply (format_size_exact_units 512 2); [lia|lia|right; lia].
Defined.

Lemma format_size_just_below_unit_witness :
  format_size 1048575 = "1024.0 " +:+ unit_name 1.
Proof.
  apply (format_size_just_below_unit 1048575 1); [lia|lia|lia].
Defined.

(** What CPython prints for some sizes, among them exact halves of a
    tenth (1280 bytes are 1.25 KB). *)
Lemma format_size_samples :
  format_size 0 = "0.0 B" ∧ format_size 1023 = "1023.0 B" ∧
  format_size 1024 = "1.0 KB" ∧ format_size 1280 = "1.2 KB" ∧
  format_size 1536 = "1.5 KB" ∧ format_size 1792 = "1.8 KB" ∧
  format_size 1048524 = "1023.9 KB" ∧ format_size 1048576 = "1.0 MB" ∧
  format_size 123456789 = "117.7 MB" ∧
  format_size 1099511627775 = "1024.0 GB" ∧
  format_size 1125899906842624 = "1024.0 TB".
Proof. vm_compute. split_and!; reflexivity. Qed.

(** A listing with a directory and two files. *)
Lemma get_files_example :
  get_files example_dir ["a.txt"; "sub"; "b.txt"] example_mtime example_fs_ab
  = Return [JObj [("name", JStr "b.txt"); ("size", JStr "3.0 B");
                  ("time", JStr "2024-01-02 00:00:00")];
            JObj [("name", JStr "a.txt"); ("size", JStr "3.0 B");
                  ("time", JStr "2024-01-01 00:00:00")]].
Proof. vm_compute. reflexivity. Qed.

Lemma get_files_lists_regular_files_witness :
  ∃ files,
    get_files example_dir ["a.txt"; "sub"; "b.txt"] example_mtime example_fs_ab
    = Return files ∧
    (∀ x, x ∈ files ↔
          ∃ c data, c ∈ ["a.txt"; "sub"; "b.txt"] ∧
                    lookup_name example_fs_ab (UPLOAD_FOLDER example_dir) c
                    = Some (File data) ∧
                    x = file_entry example_mtime c data) ∧
    length files
    = length (List.filter (os_path_isfile example_fs_ab (UPLOAD_FOLDER example_dir))
                ["a.txt"; "sub"; "b.txt"]).
Proof.
  apply (get_files_lists_regular_files example_dir ["a.txt"; "sub"; "b.txt"]
           example_mtime example_fs_ab).
  vm_compute. reflexivity.
Defined.

Lemma get_files_newest_first_witness :
  StronglySorted newer_first
    [file_entry example_mtime "b.txt" "two";
     file_entry example_mtime "a.txt" "one"].
Proof.
  apply (get_files_newest_first example_dir ["a.txt"; "sub"; "b.txt"]
           example_mtime example_fs_ab).
  vm_compute. reflexivity.
Defined.

